(** * Veterinary ration calculator: a shallow embedding of [src/main.py]

    The three commands of the calculator ([cmd_check], [cmd_pearson],
    [cmd_dilute]) and the helper [find_similar_id] are transcribed as Rocq
    functions and the properties of the specification are proved about
    them.

    Conventions of the embedding.
    - Numbers.  The commands are transcribed on exact rationals ([Q]): the
      steps of the computation, their order, their errors and their sums
      are those of the program, and equalities between computed numbers
      are stated with [==] ([Qeq]), that is up to the rounding of the
      program's binary64 arithmetic.  A missing cell of a target column
      (what pandas reads as NaN and [pd.isna] detects) is [None] in an
      [option Q].
    - What rationals cannot show is transcribed a second time.  The
      tolerance check is given on binary64 floats as well (module
      [Binary64]): it decides what happens to a value that sits on a
      bound of the window.  The builtin [float] is given with its whole
      grammar ([Py.float]): it reads [nan] and [inf] as well as numbers.
    - A test that the rational transcription takes within a rounding
      error of its threshold (the 0.1 around a total of 100, the bounds
      1.2 and 3.5 of the Ca/P flag, a decimal tie in a printed number) can
      come out differently in the program; the theorems below do not rest
      on such a borderline test.
    - [sys.exit(msg)] and an uncaught [ZeroDivisionError] are the two ways
      a command stops early; both are constructors of [Exn], carried by
      the error monad [Result].
    - Printed text is kept as structured data (numbers stay numbers);
      [render_comp_row] and [status_text] give the strings of the report.
    - Reading the CSV files ([load_data]) is outside the embedding: the two
      tables are inputs, as lists of rows in file order. *)

From Stdlib Require Import ZArith QArith Qabs List String Ascii Bool Lia Lqa.
From Stdlib Require Import Sorting.Sorted Sorting.Permutation.
From Stdlib Require Import DecimalString.
From Stdlib Require Import Floats.
Import ListNotations.

Open Scope string_scope.
Open Scope Q_scope.

(** ** Early termination *)

Inductive Exn : Type :=
| SystemExit (msg : string)
| ZeroDivisionError.

Inductive Result (A : Type) : Type :=
| Ok (a : A)
| Raise (e : Exn).

Arguments Ok {A} a.
Arguments Raise {A} e.

Definition bind {A B : Type} (m : Result A) (k : A -> Result B) : Result B :=
  match m with
  | Ok a => k a
  | Raise e => Raise e
  end.

Notation "x <- m ;; k" := (bind m (fun x => k))
  (at level 61, m at next level, right associativity).
Notation "' pat <- m ;; k" := (bind m (fun x => match x with pat => k end))
  (at level 61, pat pattern, m at next level, right associativity).

(** ** The Python builtins the program calls *)

Module Py.

(** [s.split(sep)] for a one-character separator: never the empty list,
    adjacent separators give empty fields. *)
Fixpoint split (sep : ascii) (s : string) : list string :=
  match s with
  | EmptyString => [EmptyString]
  | String c rest =>
      if Ascii.eqb c sep then EmptyString :: split sep rest
      else match split sep rest with
           | [] => [String c EmptyString]
           | field :: fields => String c field :: fields
           end
  end.

(** [sep.join(parts)] *)
Fixpoint join (sep : string) (parts : list string) : string :=
  match parts with
  | [] => EmptyString
  | [p] => p
  | p :: ps => p ++ sep ++ join sep ps
  end.

(** [a, b = parts]: unpacking into two names; [None] is the
    [ValueError] raised for any other length. *)
Definition unpack2 (parts : list string) : option (string * string) :=
  match parts with
  | [a; b] => Some (a, b)
  | _ => None
  end.

(** [x / y] on floats: a zero divisor raises. *)
Definition div (x y : Q) : Result Q :=
  if Qeq_bool y 0 then Raise ZeroDivisionError else Ok (x / y).

Definition lt (x y : Q) : bool := negb (Qle_bool y x).
Definition gt (x y : Q) : bool := negb (Qle_bool x y).
Definition le (x y : Q) : bool := Qle_bool x y.
Definition ge (x y : Q) : bool := Qle_bool y x.

(** [round(x)] to the nearest integer, ties to even, for [0 <= x]. *)
Definition round_half_even (x : Q) : Z :=
  let n := Qnum x in
  let d := Zpos (Qden x) in
  let q := (n / d)%Z in
  let r := (n mod d)%Z in
  match (2 * r ?= d)%Z with
  | Lt => q
  | Gt => (q + 1)%Z
  | Eq => if Z.even q then q else (q + 1)%Z
  end.

Definition digits (n : Z) : string :=
  NilZero.string_of_uint (N.to_uint (Z.to_N n)).

Fixpoint zeros (k : nat) : string :=
  match k with
  | O => EmptyString
  | S k' => String "0" (zeros k')
  end.

(** [f"{x:.{prec}f}"] of an exact value: fixed-point text with [prec]
    decimals, the exact value rounded half to even.  Python formats the
    binary64 number it holds in the same way from that number's exact
    value ([Binary64.format_f]); on a rational that no float equals, the
    last digit can differ where the decimals sit on a tie. *)
Definition format_f (prec : nat) (x : Q) : string :=
  let scale := (10 ^ Z.of_nat prec)%Z in
  let n := round_half_even (Qabs x * inject_Z scale) in
  let int_part := digits (n / scale) in
  let frac := digits (n mod scale) in
  let frac_part :=
    match prec with
    | O => EmptyString
    | _ => String "." (zeros (prec - String.length frac) ++ frac)
    end in
  (if lt x 0 then "-" else EmptyString) ++ int_part ++ frac_part.

(** *** What [float(s)] accepts

    The builtin reads more than decimal numbers.  Its grammar, from the
    language reference: surrounding whitespace is dropped; a sign may
    come first; then either one of the words [inf], [infinity], [nan], in
    any letter case, or a number made of digits (underscores allowed
    between digits), an optional fraction and an optional exponent.
    Anything else raises [ValueError] ([None] here).  A finite literal is
    kept as the rational it writes; the builtin rounds it to the nearest
    binary64 value.  Only ASCII whitespace and digits are covered. *)

Inductive number : Type :=
| Finite (q : Q)
| Infinite (negative : bool)
| NaN.

Definition is_space (c : ascii) : bool :=
  let n := nat_of_ascii c in
  (((9 <=? n) && (n <=? 13)) || ((28 <=? n) && (n <=? 32)))%nat.

Definition lower (c : ascii) : ascii :=
  let n := nat_of_ascii c in
  if ((65 <=? n) && (n <=? 90))%nat then ascii_of_nat (n + 32) else c.

Fixpoint lstrip (s : list ascii) : list ascii :=
  match s with
  | c :: rest => if is_space c then lstrip rest else s
  | [] => []
  end.

Definition strip (s : list ascii) : list ascii :=
  rev (lstrip (rev (lstrip s))).

Definition digit (c : ascii) : option Z :=
  let n := nat_of_ascii c in
  if ((48 <=? n) && (n <=? 57))%nat then Some (Z.of_nat (n - 48)) else None.

(** The rest of a run of digits, after its first digit: digits, each
    possibly preceded by one underscore.  Returns the value, the number of
    digits and what follows the run. *)
Fixpoint digit_run (s : list ascii) (acc : Z) (n : nat)
  : Z * nat * list ascii :=
  match s with
  | c :: rest =>
      match digit c with
      | Some d => digit_run rest (10 * acc + d)%Z (S n)
      | None =>
          match rest with
          | c2 :: rest2 =>
              if Ascii.eqb c "_" then
                match digit c2 with
                | Some d => digit_run rest2 (10 * acc + d)%Z (S n)
                | None => (acc, n, s)
                end
              else (acc, n, s)
          | [] => (acc, n, s)
          end
      end
  | [] => (acc, n, s)
  end.

Definition digitpart (s : list ascii) : option (Z * nat * list ascii) :=
  match s with
  | c :: rest =>
      match digit c with
      | Some d => Some (digit_run rest d 1)
      | None => None
      end
  | [] => None
  end.

Definition fraction (f : Z) (n : nat) : Q :=
  inject_Z f / inject_Z (10 ^ Z.of_nat n).

(** Digits with an optional fraction, or a fraction alone. *)
Definition mantissa (s : list ascii) : option (Q * list ascii) :=
  match s with
  | "."%char :: rest =>
      match digitpart rest with
      | Some (f, n, rest') => Some (fraction f n, rest')
      | None => None
      end
  | _ =>
      match digitpart s with
      | Some (i, _, "."%char :: rest) =>
          match digitpart rest with
          | Some (f, n, rest') => Some (inject_Z i + fraction f n, rest')
          | None => Some (inject_Z i, rest)
          end
      | Some (i, _, rest) => Some (inject_Z i, rest)
      | None => None
      end
  end.

(** What may follow the mantissa: nothing, or [e], a sign and digits. *)
Definition exponent (s : list ascii) : option Z :=
  match s with
  | [] => Some 0%Z
  | c :: rest =>
      if Ascii.eqb (lower c) "e" then
        let '(negative, digits_at) :=
          match rest with
          | "-"%char :: r => (true, r)
          | "+"%char :: r => (false, r)
          | _ => (false, rest)
          end in
        match digitpart digits_at with
        | Some (e, _, []) => Some (if negative then (- e)%Z else e)
        | _ => None
        end
      else None
  end.

Definition literal (s : list ascii) : option Q :=
  match mantissa s with
  | Some (m, rest) =>
      match exponent rest with
      | Some e => Some (m * inject_Z 10 ^ e)
      | None => None
      end
  | None => None
  end.

(** [float(s)] *)
Definition float (s : string) : option number :=
  let stripped := strip (list_ascii_of_string s) in
  let '(negative, body) :=
    match stripped with
    | "-"%char :: r => (true, r)
    | "+"%char :: r => (false, r)
    | _ => (false, stripped)
    end in
  let word := string_of_list_ascii (map lower body) in
  if String.eqb word "inf" || String.eqb word "infinity"
  then Some (Infinite negative)
  else if String.eqb word "nan" then Some NaN
  else match literal body with
       | Some q => Some (Finite (if negative then - q else q))
       | None => None
       end.

End Py.

(** ** [difflib.get_close_matches]

    The standard-library routine behind [find_similar_id]: score every
    possibility against the word, keep those whose score reaches the
    cutoff, and return the [n] best, best first ([heapq.nlargest] on the
    pairs of score and string).  The two cheaper scores the library tries
    first are upper bounds of the real one, so the test that decides is
    [ratio >= cutoff].  The scoring function ([SequenceMatcher.ratio], with
    the possibility as first sequence and the word as second) is a
    parameter of the section; [Difflib.ratio] below is the
    Ratcliff-Obershelp score it computes on strings too short for the
    library's junk heuristic (under 200 characters). *)

Module Difflib.

(** Python's order on the tuples [(score, x)]: scores first, then the
    strings, character by character. *)
Definition tuple_le (p q : Q * string) : bool :=
  Py.lt (fst p) (fst q)
  || (Qeq_bool (fst p) (fst q) && String.leb (snd p) (snd q)).

Fixpoint insert_desc (p : Q * string) (l : list (Q * string))
  : list (Q * string) :=
  match l with
  | [] => [p]
  | q :: rest => if tuple_le q p then p :: l else q :: insert_desc p rest
  end.

(** [sorted(l, reverse=True)] *)
Definition sorted_desc (l : list (Q * string)) : list (Q * string) :=
  fold_right insert_desc [] l.

(** [heapq.nlargest(n, l)] *)
Definition nlargest (n : nat) (l : list (Q * string)) : list (Q * string) :=
  firstn n (sorted_desc l).

Section Matches.
Variable ratio : string -> string -> Q.

(** The loop that collects [(s.ratio(), x)] for the candidates at or
    above the cutoff. *)
Fixpoint candidates (word : string) (possibilities : list string)
         (cutoff : Q) : list (Q * string) :=
  match possibilities with
  | [] => []
  | x :: rest =>
      if Py.ge (ratio x word) cutoff
      then (ratio x word, x) :: candidates word rest cutoff
      else candidates word rest cutoff
  end.

Definition get_close_matches (word : string) (possibilities : list string)
           (n : nat) (cutoff : Q) : list string :=
  map snd (nlargest n (candidates word possibilities cutoff)).
End Matches.

(** *** The score itself, for strings below the autojunk length *)

Fixpoint prefix_len (a b : list ascii) : nat :=
  match a, b with
  | x :: a', y :: b' => if Ascii.eqb x y then S (prefix_len a' b') else O
  | _, _ => O
  end.

(** Scan the suffixes of [b] from offset [j]; a block replaces the best
    one only when strictly longer. *)
Fixpoint scan_b (a b : list ascii) (i j : nat) (best : nat * nat * nat)
  : nat * nat * nat :=
  match b with
  | [] => best
  | _ :: b' =>
      let k := prefix_len a b in
      let best' := if (snd best <? k)%nat then (i, j, k) else best in
      scan_b a b' i (S j) best'
  end.

Fixpoint scan_a (a b : list ascii) (i : nat) (best : nat * nat * nat)
  : nat * nat * nat :=
  match a with
  | [] => best
  | _ :: a' => scan_a a' b (S i) (scan_b a b i O best)
  end.

(** [find_longest_match]: the longest common block, leftmost in [a], then
    leftmost in [b]. *)
Definition find_longest_match (a b : list ascii) : nat * nat * nat :=
  scan_a a b O (O, O, O).

(** Total size of the matching blocks: the longest block, then the same
    on both sides of it. *)
Fixpoint matches (fuel : nat) (a b : list ascii) : nat :=
  match fuel with
  | O => O
  | S fuel' =>
      let '(i, j, k) := find_longest_match a b in
      if (k =? 0)%nat then O
      else (matches fuel' (firstn i a) (firstn j b) + k
            + matches fuel' (skipn (i + k) a) (skipn (j + k) b))%nat
  end.

Definition ratio (a b : string) : Q :=
  let la := list_ascii_of_string a in
  let lb := list_ascii_of_string b in
  let total := (List.length la + List.length lb)%nat in
  if (total =? 0)%nat then 1
  else inject_Z (2 * Z.of_nat (matches (S (List.length la)) la lb))
       / inject_Z (Z.of_nat total).

End Difflib.

(** ** Data model: the rows of the two CSV tables *)

Record Standard : Type := mkStandard {
  Animal_ID : string;
  Description : string;
  Tolerance_Pct : Q;
  ME_Target : option Q;
  CP_Target : option Q;
  Ca_Target : option Q;
  P_Target : option Q;
  Lysine_Target : option Q
}.

Record Feed : Type := mkFeed {
  Feed_ID : string;
  Name : string;
  Max_Inclusion_Pct : Q;
  ME_per_kg : Q;
  CP_Pct : Q;
  Ca_Pct : Q;
  P_Pct : Q;
  Lysine_Pct : Q
}.

(** The dictionary [total_nutrients], with its five fixed keys. *)
Record Nutrients : Type := mkNutrients {
  ME : Q;
  CP : Q;
  Ca : Q;
  P : Q;
  Lysine : Q
}.

(** An element of [diet_data]. *)
Record DietItem : Type := mkDietItem {
  item_Feed_ID : string;
  item_Name : string;
  Qty : Q;
  Data : Feed
}.

Inductive Warning : Type :=
| TotalQuantityWarning (total_qty : Q)
| ConstraintWarning (name : string) (q max_allowed : Q).

Inductive Status : Type :=
| StatusNA
| StatusOK
| StatusLOW (deviation : Q)
| StatusHIGH (deviation : Q).

(** A row of [comp_rows] before its numbers are formatted. *)
Record CompRow : Type := mkCompRow {
  label : string;
  calc : Q;
  target : option Q;
  status : Status
}.

Record Report : Type := mkReport {
  warnings : list Warning;
  description : string;
  table_rows : list (list string);
  total_nutrients : Nutrients;
  ca_p_ratio : Q;
  me_cp_ratio : Q;
  comp_rows : list CompRow;
  ca_p_in_range : bool;
  overall_status : string
}.

Record CheckArgs : Type := mkCheckArgs {
  animal : string;
  diet : string
}.

Record PearsonReport : Type := mkPearsonReport {
  diff1 : Q;
  diff2 : Q;
  pct1 : Q;
  pct2 : Q
}.

Record DiluteReport : Type := mkDiluteReport {
  dilution_factor : Q;
  water_parts : Q
}.

(** ** The [try] block of the diet loop *)

Definition invalid_diet_msg (entry : string) : string :=
  "Error: Invalid diet format '" ++ entry ++ "'. Use 'FeedID:Quantity'.".

(** Split on the colon, unpack into two names, read the quantity; either
    [ValueError] ends the program.  The reader [float] and the kind of
    number it returns are arguments. *)
Definition parse_entry {N : Type} (float : string -> option N)
           (entry : string) : Result (string * N) :=
  match Py.unpack2 (Py.split ":" entry) with
  | Some (f_id, qty_str) =>
      match float qty_str with
      | Some qty => Ok (f_id, qty)
      | None => Raise (SystemExit (invalid_diet_msg entry))
      end
  | None => Raise (SystemExit (invalid_diet_msg entry))
  end.

(** ** The program *)

Section Program.

(** [float(s)], the builtin that reads a number; [None] is its
    [ValueError]. *)
Variable float : string -> option Q.

(** [difflib.SequenceMatcher(None, x, word).ratio()]. *)
Variable ratio : string -> string -> Q.

Definition find_similar_id (target : string) (available_ids : list string)
  : list string :=
  Difflib.get_close_matches ratio target available_ids 3 0.6.

(** *** [cmd_check], step 1: the animal row *)

(** The text of a failed lookup, with the suggestions when there are
    some. *)
Definition not_found_msg (kind target : string) (similar : list string)
  : string :=
  let msg := "Error: " ++ kind ++ " ID '" ++ target ++ "' not found." in
  match similar with
  | [] => msg
  | _ => msg ++ " Did you mean: " ++ Py.join ", " similar ++ "?"
  end.

Definition lookup_animal (standards_df : list Standard) (animal : string)
  : Result Standard :=
  match filter (fun r => String.eqb (Animal_ID r) animal) standards_df with
  | animal_std :: _ => Ok animal_std
  | [] =>
      let similar := find_similar_id animal (map Animal_ID standards_df) in
      Raise (SystemExit (not_found_msg "Animal" animal similar))
  end.

(** *** Step 2: the diet string *)

Definition lookup_feed (feeds_df : list Feed) (f_id : string) : Result Feed :=
  match filter (fun r => String.eqb (Feed_ID r) f_id) feeds_df with
  | feed_data :: _ => Ok feed_data
  | [] =>
      let similar := find_similar_id f_id (map Feed_ID feeds_df) in
      Raise (SystemExit (not_found_msg "Feed" f_id similar))
  end.

(** The loop over [diet_entries]; [diet_data] and [total_qty] are its two
    accumulators. *)
Fixpoint parse_diet (feeds_df : list Feed) (diet_entries : list string)
         (diet_data : list DietItem) (total_qty : Q)
  : Result (list DietItem * Q) :=
  match diet_entries with
  | [] => Ok (diet_data, total_qty)
  | entry :: rest =>
      '(f_id, qty) <- parse_entry float entry ;;
      feed_data <- lookup_feed feeds_df f_id ;;
      parse_diet feeds_df rest
        (diet_data ++ [mkDietItem (Feed_ID feed_data) (Name feed_data)
                                  qty feed_data])
        (total_qty + qty)
  end.

(** *** Step 3: contributions and totals *)

Definition contribution (q value : Q) : Q := (q * value) / 100.

Definition zero_nutrients : Nutrients := mkNutrients 0 0 0 0 0.

(** One turn of the loop over [diet_data]: the five [+=]. *)
Definition add_item (total : Nutrients) (item : DietItem) : Nutrients :=
  let f := Data item in
  let q := Qty item in
  let me_contrib := contribution q (ME_per_kg f) in
  let cp_contrib := contribution q (CP_Pct f) in
  let ca_contrib := contribution q (Ca_Pct f) in
  let p_contrib := contribution q (P_Pct f) in
  let lys_contrib := contribution q (Lysine_Pct f) in
  mkNutrients (ME total + me_contrib) (CP total + cp_contrib)
              (Ca total + ca_contrib) (P total + p_contrib)
              (Lysine total + lys_contrib).

Definition accumulate (diet_data : list DietItem) : Nutrients :=
  fold_left add_item diet_data zero_nutrients.

(** The row of the ration table: here, and only here, the numbers are
    rounded. *)
Definition table_row (item : DietItem) : list string :=
  let f := Data item in
  let q := Qty item in
  [Name f; Py.format_f 1 q;
   Py.format_f 1 (contribution q (ME_per_kg f));
   Py.format_f 2 (contribution q (CP_Pct f));
   Py.format_f 2 (contribution q (Ca_Pct f));
   Py.format_f 2 (contribution q (P_Pct f))].

Definition inclusion_warnings (diet_data : list DietItem) : list Warning :=
  flat_map (fun item =>
              let f := Data item in
              let q := Qty item in
              if Py.gt q (Max_Inclusion_Pct f)
              then [ConstraintWarning (Name f) q (Max_Inclusion_Pct f)]
              else [])
           diet_data.

(** *** Step 5: the two ratios, [num / den if den > 0 else 0] *)

Definition guarded_ratio (num den : Q) : Result Q :=
  if Py.gt den 0 then Py.div num den else Ok 0.

(** *** Step 6: comparison with the standard *)

Definition comparison_data (total : Nutrients) (animal_std : Standard)
  : list (string * Q * option Q) :=
  [("Metabolizable Energy (ME)", ME total, ME_Target animal_std);
   ("Crude Protein (CP %)", CP total, CP_Target animal_std);
   ("Calcium (Ca %)", Ca total, Ca_Target animal_std);
   ("Phosphorus (P %)", P total, P_Target animal_std);
   ("Lysine (%)", Lysine total, Lysine_Target animal_std)].

(** The percentage shown next to LOW and HIGH. *)
Definition deviation (calc target : Q) : Result Q :=
  d <- Py.div (calc - target) target ;;
  Ok (d * 100).

(** The body of the loop for a nutrient whose target is a number, on
    rationals: the bounds are exact here.  [Binary64.check_nutrient] is the
    same body on floats, with the bounds as the program rounds them. *)
Definition check_nutrient (tolerance calc target : Q) : Result Status :=
  let low := target * (1 - tolerance) in
  let high := target * (1 + tolerance) in
  if Py.le low calc && Py.le calc high then Ok StatusOK
  else if Py.lt calc low then
    d <- deviation calc target ;; Ok (StatusLOW d)
  else
    d <- deviation calc target ;; Ok (StatusHIGH d).

Definition is_fail (s : Status) : bool :=
  match s with
  | StatusLOW _ | StatusHIGH _ => true
  | StatusNA | StatusOK => false
  end.

(** The loop over [comparison_data]; [comp_rows] and [overall_status]
    are its accumulators. *)
Fixpoint compare_loop (tolerance : Q) (data : list (string * Q * option Q))
         (comp_rows : list CompRow) (overall_status : string)
  : Result (list CompRow * string) :=
  match data with
  | [] => Ok (comp_rows, overall_status)
  | (label, calc, None) :: rest =>
      compare_loop tolerance rest
        (comp_rows ++ [mkCompRow label calc None StatusNA]) overall_status
  | (label, calc, Some target) :: rest =>
      status <- check_nutrient tolerance calc target ;;
      compare_loop tolerance rest
        (comp_rows ++ [mkCompRow label calc (Some target) status])
        (if is_fail status then "FAIL" else overall_status)
  end.

(** The strings of the report. *)
Definition status_text (s : Status) : string :=
  match s with
  | StatusNA => "N/A"
  | StatusOK => "âœ… OK"
  | StatusLOW d => "ðŸ”» LOW (" ++ Py.format_f 1 d ++ "%)"
  | StatusHIGH d => "ðŸ”º HIGH (+" ++ Py.format_f 1 d ++ "%)"
  end.

Definition render_comp_row (r : CompRow) : list string :=
  [label r; Py.format_f 2 (calc r);
   match target r with
   | None => "-"
   | Some t => Py.format_f 2 t
   end;
   status_text (status r)].

(** *** The whole command

    The warning about the total and the flag on the Ca/P ratio are decided
    here on the rationals, the program decides them on the floats it
    computed. *)

Definition cmd_check (standards_df : list Standard) (feeds_df : list Feed)
           (args : CheckArgs) : Result Report :=
  animal_std <- lookup_animal standards_df (animal args) ;;
  '(diet_data, total_qty) <-
     parse_diet feeds_df (Py.split "," (diet args)) [] 0 ;;
  let qty_warning :=
    if Py.gt (Qabs (total_qty - 100.0)) 0.1
    then [TotalQuantityWarning total_qty] else [] in
  let total := accumulate diet_data in
  ca_p <- guarded_ratio (Ca total) (P total) ;;
  me_cp <- guarded_ratio (ME total) (CP total) ;;
  let tolerance := Tolerance_Pct animal_std / 100.0 in
  '(rows, verdict) <-
     compare_loop tolerance (comparison_data total animal_std) [] "PASS" ;;
  Ok (mkReport (qty_warning ++ inclusion_warnings diet_data)
               (Description animal_std)
               (map table_row diet_data)
               total ca_p me_cp rows
               (Py.le 1.2 ca_p && Py.le ca_p 3.5)
               verdict).

(** *** [cmd_pearson] *)

Definition cmd_pearson (target f1 f2 : Q) : Result PearsonReport :=
  if negb ((Py.le f1 target && Py.le target f2)
           || (Py.le f2 target && Py.le target f1))
  then Raise (SystemExit
                "Error: Target value must be between the two feed values.")
  else
    let diff1 := Qabs (f2 - target) in
    let diff2 := Qabs (f1 - target) in
    let total_parts := diff1 + diff2 in
    x1 <- Py.div diff1 total_parts ;;
    let pct1 := x1 * 100 in
    x2 <- Py.div diff2 total_parts ;;
    let pct2 := x2 * 100 in
    Ok (mkPearsonReport diff1 diff2 pct1 pct2).

(** *** [cmd_dilute] *)

Definition cmd_dilute (start target : Q) : Result DiluteReport :=
  if Py.ge target start then
    Raise (SystemExit
             "Error: Target concentration must be lower than start concentration for dilution.")
  else if Py.le target 0 then
    Raise (SystemExit "Error: Target cannot be zero.")
  else
    dilution_factor <- Py.div start target ;;
    let water_parts := dilution_factor - 1 in
    Ok (mkDiluteReport dilution_factor water_parts).

End Program.

(** ** A reader for plain decimal literals

    The fragment [[+-]digits[.digits]] of what [float] accepts, enough to
    run the program on the usual diet strings.  The theorems below hold for
    every reader, this one included. *)

Module Decimal.

Definition digit (c : ascii) : option Z :=
  let n := nat_of_ascii c in
  if ((48 <=? n) && (n <=? 57))%nat then Some (Z.of_nat (n - 48)) else None.

Fixpoint digits_value (s : string) (acc : Z) : option Z :=
  match s with
  | EmptyString => Some acc
  | String c rest =>
      match digit c with
      | Some d => digits_value rest (10 * acc + d)%Z
      | None => None
      end
  end.

Definition unsigned (s : string) : option Q :=
  match Py.split "." s with
  | [i] =>
      if String.eqb i "" then None
      else option_map inject_Z (digits_value i 0)
  | [i; f] =>
      if String.eqb i "" && String.eqb f "" then None
      else
        match digits_value i 0, digits_value f 0 with
        | Some a, Some b =>
            Some (inject_Z a
                  + inject_Z b / inject_Z (10 ^ Z.of_nat (String.length f)))
        | _, _ => None
        end
  | _ => None
  end.

Definition float (s : string) : option Q :=
  match s with
  | String "-" rest => option_map Qopp (unsigned rest)
  | String "+" rest => unsigned rest
  | _ => unsigned s
  end.

End Decimal.

(** ** The tolerance check on binary64 numbers

    The comparison of a total with its target, lines 162 to 175 of
    [cmd_check], once more, this time on the numbers the program really
    computes with: IEEE 754 binary64, every operation rounded to nearest,
    ties to even.  Where a claim turns on a value that sits on a bound of
    the window, this transcription decides, not the rational one. *)

Module Binary64.

(** [x / y] on floats: a zero divisor, of either sign, raises. *)
Definition div (x y : PrimFloat.float) : Result PrimFloat.float :=
  if PrimFloat.eqb y 0 then Raise ZeroDivisionError
  else Ok (PrimFloat.div x y).

Inductive Status : Type :=
| StatusOK
| StatusLOW (deviation : PrimFloat.float)
| StatusHIGH (deviation : PrimFloat.float).

(** [((calc - target) / target) * 100] *)
Definition deviation (calc target : PrimFloat.float)
  : Result PrimFloat.float :=
  d <- div (PrimFloat.sub calc target) target ;;
  Ok (PrimFloat.mul d 100).

Definition low (tolerance target : PrimFloat.float) : PrimFloat.float :=
  PrimFloat.mul target (PrimFloat.sub 1 tolerance).

Definition high (tolerance target : PrimFloat.float) : PrimFloat.float :=
  PrimFloat.mul target (PrimFloat.add 1 tolerance).

(** The body of the loop for a nutrient whose target is a number. *)
Definition check_nutrient (tolerance calc target : PrimFloat.float)
  : Result Status :=
  if PrimFloat.leb (low tolerance target) calc
     && PrimFloat.leb calc (high tolerance target)
  then Ok StatusOK
  else if PrimFloat.ltb calc (low tolerance target) then
    d <- deviation calc target ;; Ok (StatusLOW d)
  else
    d <- deviation calc target ;; Ok (StatusHIGH d).

(** [tolerance = animal_std['Tolerance_Pct'] / 100.0], then the check. *)
Definition nutrient_status (T tau V : PrimFloat.float) : Result Status :=
  check_nutrient (PrimFloat.div tau 100) V T.

(** The rational a finite binary64 number is. *)
Definition exact (x : PrimFloat.float) : option Q :=
  match Prim2SF x with
  | S754_zero _ => Some 0
  | S754_finite negative m e =>
      let v := inject_Z (Zpos m) * inject_Z 2 ^ e in
      Some (Qred (if negative then - v else v))
  | S754_infinity _ | S754_nan => None
  end.

(** [f"{x:.{prec}f}"] on a float: the decimal text of its exact value,
    rounded half to even. *)
Definition format_f (prec : nat) (x : PrimFloat.float) : string :=
  match Prim2SF x with
  | S754_zero negative =>
      (if negative then "-" else EmptyString) ++ Py.format_f prec 0
  | S754_finite negative m e =>
      (if negative then "-" else EmptyString)
      ++ Py.format_f prec (inject_Z (Zpos m) * inject_Z 2 ^ e)
  | S754_infinity negative => if negative then "-inf" else "inf"
  | S754_nan => "nan"
  end.

Definition status_text (s : Status) : string :=
  match s with
  | StatusOK => "âœ… OK"
  | StatusLOW d => "ðŸ”» LOW (" ++ format_f 1 d ++ "%)"
  | StatusHIGH d => "ðŸ”º HIGH (+" ++ format_f 1 d ++ "%)"
  end.

End Binary64.


(** ** Vocabulary of the specification *)

Inductive Nutrient : Type := nME | nCP | nCa | nP | nLysine.

(** The running total kept under a nutrient's key. *)
Definition total_of (n : Nutrient) (t : Nutrients) : Q :=
  match n with
  | nME => ME t
  | nCP => CP t
  | nCa => Ca t
  | nP => P t
  | nLysine => Lysine t
  end.

(** The column of the feed table that holds a nutrient's value per 100
    units. *)
Definition value_of (n : Nutrient) (f : Feed) : Q :=
  match n with
  | nME => ME_per_kg f
  | nCP => CP_Pct f
  | nCa => Ca_Pct f
  | nP => P_Pct f
  | nLysine => Lysine_Pct f
  end.

(** The sum the specification writes: over the entries of the diet,
    quantity times value, divided by 100. *)
Definition nutrient_sum (n : Nutrient) (diet_data : list DietItem) : Q :=
  fold_right Qplus 0
    (map (fun e => Qty e * value_of n (Data e) / 100) diet_data).

(** The tolerance window of a target [T] with tolerance [tau] percent. *)
Definition window_low (T tau : Q) : Q := T * (1 - tau / 100).
Definition window_high (T tau : Q) : Q := T * (1 + tau / 100).
Definition in_window (T tau V : Q) : Prop :=
  window_low T tau <= V /\ V <= window_high T tau.

(** Similarities in descending order. *)
Definition descending (l : list Q) : Prop :=
  StronglySorted (fun a b => b <= a) l.

(** The validation at the head of [cmd_pearson]: the target lies between
    the two feed values, in either order, bounds included. *)
Definition between (target f1 f2 : Q) : Prop :=
  (f1 <= target /\ target <= f2) \/ (f2 <= target /\ target <= f1).

(** Scores in descending order, on the scored pairs of [get_close_matches]. *)
Definition by_score (a b : Q * string) : Prop := fst b <= fst a.

(** What the comparison loop leaves in a row: N/A without a target, the
    outcome of the tolerance check with one. *)
Definition row_checked (tolerance : Q) (r : CompRow) : Prop :=
  match target r with
  | None => status r = StatusNA
  | Some t => check_nutrient tolerance (calc r) t = Ok (status r)
  end.

(** The verdict of a run of the comparison loop, or the error that ended
    it. *)
Definition verdict_of (r : Result (list CompRow * string)) : Result string :=
  '(_, verdict) <- r ;; Ok verdict.

(** The tolerance check in the words of the specification, read on the
    numbers of the program: with [t], [u], [v] the values of the three
    floats, OK exactly when [v] is in the window of [t] and [u], LOW
    under it and HIGH over it. *)
Definition tolerance_claim (T tau V : PrimFloat.float) : Prop :=
  forall t u v : Q,
    Binary64.exact T = Some t ->
    Binary64.exact tau = Some u ->
    Binary64.exact V = Some v ->
    (Binary64.nutrient_status T tau V = Ok Binary64.StatusOK
     <-> in_window t u v)
    /\ (v < window_low t u ->
        exists d, Binary64.nutrient_status T tau V
                  = Ok (Binary64.StatusLOW d))
    /\ (window_high t u < v ->
        exists d, Binary64.nutrient_status T tau V
                  = Ok (Binary64.StatusHIGH d)).

(** The parsing of a token in the words of the specification, with
    Python's own reader: refused exactly when the split on the colon does
    not give two substrings or the quantity denotes no real number. *)
Definition real_quantity_claim (entry : string) : Prop :=
  (exists e, parse_entry Py.float entry = Raise e)
  <-> (List.length (Py.split ":" entry) <> 2%nat
       \/ exists f_id qty_str,
            Py.split ":" entry = [f_id; qty_str]
            /\ forall q : Q, Py.float qty_str <> Some (Py.Finite q)).

(** A derived ratio in the words of the specification: the quotient,
    unless the denominator is exactly zero. *)
Definition quotient_unless_zero (num den r : Q) : Prop :=
  (den == 0 -> r == 0) /\ (~ den == 0 -> r == num / den).

(** ** A small data set *)

Module Sample.

Definition broiler : Standard :=
  mkStandard "BROILER" "Broiler starter" 10
             (Some 3000) (Some 18) (Some 1.0) (Some 0.5) None.

Definition layer : Standard :=
  mkStandard "LAYER" "Laying hen" 5
             (Some 2800) (Some 16) (Some 3.5) (Some 0.4) (Some 0.8).

Definition standards_df : list Standard := [broiler; layer].

Definition corn : Feed :=
  mkFeed "CORN" "Yellow corn" 70 3350 8.5 0.02 0.28 0.26.

Definition soy : Feed :=
  mkFeed "SOY" "Soybean meal" 40 2230 44 0.3 0.65 2.7.

Definition limestone : Feed :=
  mkFeed "LIME" "Limestone" 10 0 0 38 0 0.

Definition feeds_df : list Feed := [corn; soy; limestone].

Definition check (animal diet : string) : Result Report :=
  cmd_check Decimal.float Difflib.ratio standards_df feeds_df
            (mkCheckArgs animal diet).

End Sample.

(** ** Further vocabulary *)

(** [s.count(c)] for a one-character [c]. *)
Fixpoint count_char (c : ascii) (s : string) : nat :=
  match s with
  | EmptyString => O
  | String x rest =>
      if Ascii.eqb x c then S (count_char c rest) else count_char c rest
  end.

(** One turn of the loop over [diet_entries]: the token is parsed, its
    feed is looked up, and the item to append is built. *)
Definition resolve_entry (float : string -> option Q)
           (ratio : string -> string -> Q) (feeds_df : list Feed)
           (entry : string) : Result DietItem :=
  '(f_id, qty) <- parse_entry float entry ;;
  feed_data <- lookup_feed ratio feeds_df f_id ;;
  Ok (mkDietItem (Feed_ID feed_data) (Name feed_data) qty feed_data).

(** The sum of the quantities of a diet. *)
Definition sum_qty (diet_data : list DietItem) : Q :=
  fold_right Qplus 0 (map Qty diet_data).

(** The two texts [cmd_dilute] can exit with. *)
Definition dilute_not_lower_msg : string :=
  "Error: Target concentration must be lower than start concentration for dilution.".
Definition dilute_zero_msg : string := "Error: Target cannot be zero.".

(** The text [cmd_pearson] exits with. *)
Definition pearson_range_msg : string :=
  "Error: Target value must be between the two feed values.".

(** * Properties *)

(** ** Comparisons and division *)

Lemma le_iff (x y : Q) : Py.le x y = true <-> x <= y.
Proof. apply Qle_bool_iff. Qed.

Lemma ge_iff (x y : Q) : Py.ge x y = true <-> y <= x.
Proof. apply Qle_bool_iff. Qed.

Lemma lt_iff (x y : Q) : Py.lt x y = true <-> x < y.
Proof.
  unfold Py.lt. rewrite negb_true_iff.
  split; intro H.
  - apply Qnot_le_lt. intro Hle. apply Qle_bool_iff in Hle. congruence.
  - destruct (Qle_bool y x) eqn:E; [|reflexivity].
    apply Qle_bool_iff in E. exfalso. apply (Qlt_not_le _ _ H E).
Qed.

Lemma gt_iff (x y : Q) : Py.gt x y = true <-> y < x.
Proof. unfold Py.gt. apply (lt_iff y x). Qed.

Lemma le_false_iff (x y : Q) : Py.le x y = false <-> y < x.
Proof.
  rewrite <- (lt_iff y x). unfold Py.lt, Py.le.
  destruct (Qle_bool x y); simpl; intuition congruence.
Qed.

Lemma lt_false_iff (x y : Q) : Py.lt x y = false <-> y <= x.
Proof.
  rewrite <- (le_iff y x). unfold Py.lt, Py.le.
  destruct (Qle_bool y x); simpl; intuition congruence.
Qed.

Lemma div_nonzero (x y : Q) : ~ y == 0 -> Py.div x y = Ok (x / y).
Proof.
  intro H. unfold Py.div.
  destruct (Qeq_bool y 0) eqn:E; [|reflexivity].
  apply Qeq_bool_iff in E. contradiction.
Qed.

Lemma div_zero (x y : Q) : y == 0 -> Py.div x y = Raise ZeroDivisionError.
Proof.
  intro H. unfold Py.div. apply Qeq_bool_iff in H. now rewrite H.
Qed.

(** ** C1: the running totals *)

Section Totals.

(** Starting the loop from any totals adds the specification's sum to
    them. *)
Lemma fold_add_item (n : Nutrient) (diet_data : list DietItem) :
  forall start : Nutrients,
    total_of n (fold_left add_item diet_data start)
    == total_of n start + nutrient_sum n diet_data.
Proof.
  induction diet_data as [|item rest IH]; intro start; simpl.
  - unfold nutrient_sum; simpl. ring.
  - rewrite IH. unfold nutrient_sum; simpl.
    destruct n; simpl; unfold contribution; ring.
Qed.

End Totals.

(** C1.  For every diet, the total accumulated under each of the five
    nutrients is the sum over the entries of quantity times the feed's
    value for that nutrient, divided by 100; the totals are exact sums of
    the unrounded contributions. *)
Theorem total_is_sum_of_contributions :
  forall (diet_data : list DietItem) (n : Nutrient),
    total_of n (accumulate diet_data) == nutrient_sum n diet_data.
Proof.
  intros diet_data n. unfold accumulate.
  rewrite fold_add_item. destruct n; simpl; ring.
Qed.

(** ** Taking [cmd_check] apart *)

Section CheckSteps.
Variable float : string -> option Q.
Variable ratio : string -> string -> Q.

(** A report is produced only through the steps of the command, each of
    which succeeded. *)
Lemma cmd_check_steps standards_df feeds_df args rep :
  cmd_check float ratio standards_df feeds_df args = Ok rep ->
  exists animal_std diet_data total_qty,
    lookup_animal ratio standards_df (animal args) = Ok animal_std
    /\ parse_diet float ratio feeds_df (Py.split "," (diet args)) [] 0
       = Ok (diet_data, total_qty)
    /\ total_nutrients rep = accumulate diet_data
    /\ guarded_ratio (Ca (total_nutrients rep)) (P (total_nutrients rep))
       = Ok (ca_p_ratio rep)
    /\ guarded_ratio (ME (total_nutrients rep)) (CP (total_nutrients rep))
       = Ok (me_cp_ratio rep)
    /\ compare_loop (Tolerance_Pct animal_std / 100.0)
         (comparison_data (total_nutrients rep) animal_std) [] "PASS"
       = Ok (comp_rows rep, overall_status rep).
Proof.
  unfold cmd_check. intro H.
  destruct (lookup_animal ratio standards_df (animal args))
    as [animal_std|] eqn:Ha; cbn [bind] in H; [|discriminate].
  destruct (parse_diet float ratio feeds_df (Py.split "," (diet args)) [] 0)
    as [[diet_data total_qty]|] eqn:Hd; cbn [bind] in H; [|discriminate].
  destruct (guarded_ratio (Ca (accumulate diet_data))
                          (P (accumulate diet_data)))
    as [ca_p|] eqn:Hr1; cbn [bind] in H; [|discriminate].
  destruct (guarded_ratio (ME (accumulate diet_data))
                          (CP (accumulate diet_data)))
    as [me_cp|] eqn:Hr2; cbn [bind] in H; [|discriminate].
  destruct (compare_loop (Tolerance_Pct animal_std / 100.0)
              (comparison_data (accumulate diet_data) animal_std) [] "PASS")
    as [[rows verdict]|] eqn:Hc; cbn [bind] in H; [|discriminate].
  injection H as <-. simpl.
  exists animal_std, diet_data, total_qty. repeat split; assumption.
Qed.

(** The totals of a report are the specification's sums over the diet it
    parsed. *)
Lemma cmd_check_totals standards_df feeds_df args rep :
  cmd_check float ratio standards_df feeds_df args = Ok rep ->
  exists diet_data total_qty,
    parse_diet float ratio feeds_df (Py.split "," (diet args)) [] 0
    = Ok (diet_data, total_qty)
    /\ forall n, total_of n (total_nutrients rep) == nutrient_sum n diet_data.
Proof.
  intro H. apply cmd_check_steps in H.
  destruct H as (animal_std & diet_data & total_qty & _ & Hd & Ht & _).
  exists diet_data, total_qty. split; [assumption|].
  intro n. rewrite Ht. unfold accumulate.
  rewrite fold_add_item. destruct n; simpl; ring.
Qed.

End CheckSteps.

(** ** C4: the two ratios *)

Lemma guarded_ratio_cases (num den : Q) :
  (0 < den /\ guarded_ratio num den = Ok (num / den))
  \/ (den <= 0 /\ guarded_ratio num den = Ok 0).
Proof.
  unfold guarded_ratio. destruct (Py.gt den 0) eqn:E.
  - apply gt_iff in E. left. split; [assumption|].
    apply div_nonzero. intro Hz. rewrite Hz in E. apply (Qlt_irrefl 0 E).
  - right. split; [|reflexivity].
    unfold Py.gt in E. now apply lt_false_iff in E.
Qed.

Lemma guarded_ratio_value (num den r : Q) :
  guarded_ratio num den = Ok r ->
  (0 < den -> r = num / den) /\ (den <= 0 -> r = 0).
Proof.
  intro H.
  destruct (guarded_ratio_cases num den) as [[Hd E]|[Hd E]];
    rewrite E in H; injection H as <-; split; intro H'; try reflexivity;
    exfalso.
  - apply (Qlt_not_le _ _ Hd H').
  - apply (Qlt_not_le _ _ H' Hd).
Qed.

(** C4, as the code has it.  Neither ratio ever divides by zero: the
    quotient is taken only under a positive denominator.  In a report,
    Ca/P is [Ca / P] of the totals when the phosphorus total is positive
    and 0 when it is zero or negative; ME/CP likewise with the protein
    total. *)
Theorem ratios_guarded_by_positive_denominator :
  (forall num den : Q, exists r : Q, guarded_ratio num den = Ok r)
  /\ forall float ratio standards_df feeds_df args rep,
      cmd_check float ratio standards_df feeds_df args = Ok rep ->
      let t := total_nutrients rep in
      (0 < P t -> ca_p_ratio rep = Ca t / P t)
      /\ (P t <= 0 -> ca_p_ratio rep = 0)
      /\ (0 < CP t -> me_cp_ratio rep = ME t / CP t)
      /\ (CP t <= 0 -> me_cp_ratio rep = 0).
Proof.
  split.
  - intros num den.
    destruct (guarded_ratio_cases num den) as [[_ E]|[_ E]];
      rewrite E; eauto.
  - intros float ratio standards_df feeds_df args rep H t.
    apply cmd_check_steps in H.
    destruct H as (_ & _ & _ & _ & _ & _ & H1 & H2 & _).
    apply guarded_ratio_value in H1. apply guarded_ratio_value in H2.
    subst t. tauto.
Qed.


(** On the sample ration both denominators are positive and the ratios
    are the quotients. *)
Lemma ratios_guarded_by_positive_denominator_witness :
  exists rep,
    Sample.check "BROILER" "CORN:60,SOY:38,LIME:2" = Ok rep
    /\ ca_p_ratio rep = Ca (total_nutrients rep) / P (total_nutrients rep)
    /\ me_cp_ratio rep = ME (total_nutrients rep) / CP (total_nutrients rep).
Proof.
  eexists. split; [vm_compute; reflexivity|].
  split.
  - apply (proj2 ratios_guarded_by_positive_denominator
                 Decimal.float Difflib.ratio
                 Sample.standards_df Sample.feeds_df
                 (mkCheckArgs "BROILER" "CORN:60,SOY:38,LIME:2"));
      [vm_compute; reflexivity|reflexivity].
  - apply (proj2 ratios_guarded_by_positive_denominator
                 Decimal.float Difflib.ratio
                 Sample.standards_df Sample.feeds_df
                 (mkCheckArgs "BROILER" "CORN:60,SOY:38,LIME:2"));
      [vm_compute; reflexivity|reflexivity].
Defined.

(** C4 as stated fails on a diet with a negative quantity: the phosphorus
    total is negative, not zero, and the reported Ca/P is 0 rather than the
    quotient. *)
Lemma ratio_is_zero_for_negative_total :
  exists rep,
    Sample.check "BROILER" "CORN:-100" = Ok rep
    /\ P (total_nutrients rep) < 0
    /\ ~ quotient_unless_zero (Ca (total_nutrients rep))
                              (P (total_nutrients rep)) (ca_p_ratio rep).
Proof.
  eexists. split; [vm_compute; reflexivity|]. split.
  - reflexivity.
  - intros [_ H]. cbv beta iota delta [total_nutrients ca_p_ratio Ca P] in H.
    assert (Hq : 0 == -0.0200 / -0.2800) by (apply H; discriminate).
    discriminate Hq.
Qed.

(** ** C5, C6: Pearson Square *)

Section Pearson.


Lemma between_test (target f1 f2 : Q) :
  (Py.le f1 target && Py.le target f2)
  || (Py.le f2 target && Py.le target f1) = true
  <-> between target f1 f2.
Proof.
  unfold between.
  rewrite orb_true_iff, !andb_true_iff, !le_iff. reflexivity.
Qed.

(** Past the validation the command is two divisions by the total. *)
Lemma pearson_valid (target f1 f2 : Q) :
  between target f1 f2 ->
  cmd_pearson target f1 f2 =
  (x1 <- Py.div (Qabs (f2 - target))
                (Qabs (f2 - target) + Qabs (f1 - target)) ;;
   x2 <- Py.div (Qabs (f1 - target))
                (Qabs (f2 - target) + Qabs (f1 - target)) ;;
   Ok (mkPearsonReport (Qabs (f2 - target)) (Qabs (f1 - target))
                       (x1 * 100) (x2 * 100))).
Proof.
  intro H. apply between_test in H. unfold cmd_pearson.
  rewrite H. reflexivity.
Qed.

Lemma pearson_invalid (target f1 f2 : Q) :
  ~ between target f1 f2 ->
  cmd_pearson target f1 f2 =
  Raise (SystemExit
           "Error: Target value must be between the two feed values.").
Proof.
  intro H. unfold cmd_pearson.
  destruct ((Py.le f1 target && Py.le target f2)
            || (Py.le f2 target && Py.le target f1)) eqn:E.
  - apply between_test in E. contradiction.
  - reflexivity.
Qed.

Lemma total_parts_positive (target f1 f2 : Q) :
  ~ (f1 == target /\ f2 == target) ->
  0 < Qabs (f2 - target) + Qabs (f1 - target).
Proof.
  intro H.
  pose proof (Qabs_nonneg (f2 - target)) as H2.
  pose proof (Qabs_nonneg (f1 - target)) as H1.
  destruct (Qlt_le_dec 0 (Qabs (f2 - target) + Qabs (f1 - target)))
    as [Hpos|Hle]; [assumption|].
  exfalso. apply H.
  assert (E2 : Qabs (f2 - target) == 0) by lra.
  assert (E1 : Qabs (f1 - target) == 0) by lra.
  split.
  - assert (Hz : - 0 <= f1 - target <= 0)
      by (apply Qabs_Qle_condition; lra).
    lra.
  - assert (Hz : - 0 <= f2 - target <= 0)
      by (apply Qabs_Qle_condition; lra).
    lra.
Qed.

(** Away from the degenerate input the command returns a report. *)
Lemma pearson_report (target f1 f2 : Q) :
  between target f1 f2 ->
  ~ (f1 == target /\ f2 == target) ->
  cmd_pearson target f1 f2 =
  Ok (mkPearsonReport
        (Qabs (f2 - target)) (Qabs (f1 - target))
        (Qabs (f2 - target)
         / (Qabs (f2 - target) + Qabs (f1 - target)) * 100)
        (Qabs (f1 - target)
         / (Qabs (f2 - target) + Qabs (f1 - target)) * 100)).
Proof.
  intros Hb Hnd. rewrite (pearson_valid _ _ _ Hb).
  pose proof (total_parts_positive _ _ _ Hnd) as Hpos.
  rewrite !div_nonzero by (intro E; rewrite E in Hpos;
                           apply (Qlt_irrefl 0 Hpos)).
  reflexivity.
Qed.

End Pearson.

(** C5, on the degenerate input.  With both feed values equal to the
    target the validation passes, the total of the parts is zero, and the
    first percentage divides by it: the command stops on
    [ZeroDivisionError], with neither a report nor a message of its own. *)
Theorem pearson_degenerate_input_divides_by_zero :
  forall v : Q,
    between v v v /\ cmd_pearson v v v = Raise ZeroDivisionError.
Proof.
  intro v.
  assert (Hb : between v v v) by (left; split; apply Qle_refl).
  split; [assumption|].
  rewrite (pearson_valid _ _ _ Hb).
  assert (Hz : Qabs (v - v) + Qabs (v - v) == 0).
  { assert (E : v - v == 0) by ring. rewrite E. reflexivity. }
  rewrite (div_zero _ _ Hz). reflexivity.
Qed.

(** C6.  With the target strictly between the two feed values the solver
    returns a report whose parts are the two absolute differences, whose
    parts are in the ratio [(feed2 - target) / (target - feed1)], and whose
    percentages add up to 100 (exactly, numbers being rationals here). *)
Theorem pearson_parts_and_percentages :
  forall target f1 f2 : Q,
    (f1 < target /\ target < f2) \/ (f2 < target /\ target < f1) ->
    exists r : PearsonReport,
      cmd_pearson target f1 f2 = Ok r
      /\ diff1 r = Qabs (f2 - target)
      /\ diff2 r = Qabs (f1 - target)
      /\ diff1 r / diff2 r == (f2 - target) / (target - f1)
      /\ pct1 r + pct2 r == 100.
Proof.
  intros target f1 f2 H.
  assert (Hb : between target f1 f2).
  { unfold between. destruct H as [[? ?]|[? ?]]; [left|right]; split;
      apply Qlt_le_weak; assumption. }
  assert (Hnd : ~ (f1 == target /\ f2 == target)).
  { intros [E1 E2]. destruct H as [[H1 _]|[H2 _]].
    - rewrite E1 in H1. apply (Qlt_irrefl _ H1).
    - rewrite E2 in H2. apply (Qlt_irrefl _ H2). }
  eexists. split; [apply (pearson_report _ _ _ Hb Hnd)|].
  cbn [diff1 diff2 pct1 pct2].
  pose proof (total_parts_positive _ _ _ Hnd) as Hpos.
  repeat split.
  - destruct H as [[H1 H2]|[H2 H1]].
    + rewrite (Qabs_pos (f2 - target)) by lra.
      rewrite (Qabs_neg (f1 - target)) by lra.
      field. lra.
    + rewrite (Qabs_neg (f2 - target)) by lra.
      rewrite (Qabs_pos (f1 - target)) by lra.
      field. split; lra.
  - set (d1 := Qabs (f2 - target)) in *.
    set (d2 := Qabs (f1 - target)) in *.
    field. lra.
Qed.

(** The sample blend: 18 between 9 and 44. *)
Lemma pearson_parts_and_percentages_witness :
  exists r : PearsonReport,
    cmd_pearson 18 9 44 = Ok r
    /\ diff1 r = Qabs (44 - 18)
    /\ diff2 r = Qabs (9 - 18)
    /\ diff1 r / diff2 r == (44 - 18) / (18 - 9)
    /\ pct1 r + pct2 r == 100.
Proof.
  apply (pearson_parts_and_percentages 18 9 44).
  left. split; reflexivity.
Defined.

(** ** C7: dilution *)

(** C7.  The dilution solver stops with an error exactly when the target
    concentration is at least the start concentration or is not positive;
    otherwise it returns the factor [start / target] and that factor minus
    one as the parts of water. *)
Theorem dilute_fails_iff_precondition_violated :
  forall start target : Q,
    ((exists e, cmd_dilute start target = Raise e)
     <-> (start <= target \/ target <= 0))
    /\ (target < start -> 0 < target ->
        cmd_dilute start target
        = Ok (mkDiluteReport (start / target) (start / target - 1))).
Proof.
  intros start target.
  assert (Hok : target < start -> 0 < target ->
                cmd_dilute start target
                = Ok (mkDiluteReport (start / target) (start / target - 1))).
  { intros H1 H2. unfold cmd_dilute.
    assert (E1 : Py.ge target start = false).
    { unfold Py.ge. apply le_false_iff. assumption. }
    assert (E2 : Py.le target 0 = false) by (apply le_false_iff; assumption).
    rewrite E1, E2, div_nonzero by lra. reflexivity. }
  split; [|assumption]. split.
  - intros [e He].
    destruct (Qlt_le_dec target start) as [H1|H1]; [|left; assumption].
    destruct (Qlt_le_dec 0 target) as [H2|H2]; [|right; assumption].
    rewrite (Hok H1 H2) in He. discriminate.
  - intros [H|H]; unfold cmd_dilute.
    + apply ge_iff in H. rewrite H. eauto.
    + destruct (Py.ge target start); [eauto|].
      apply le_iff in H. rewrite H. eauto.
Qed.

(** The specification's example: from 20 down to 5. *)
Lemma dilute_fails_iff_precondition_violated_witness :
  cmd_dilute 20 5 = Ok (mkDiluteReport (20 / 5) (20 / 5 - 1)).
Proof.
  apply (dilute_fails_iff_precondition_violated 20 5); reflexivity.
Defined.

(** ** The tolerance check on rationals *)

Section Tolerance.

Lemma deviation_nonzero (calc target : Q) :
  ~ target == 0 ->
  deviation calc target = Ok ((calc - target) / target * 100).
Proof.
  intro H. unfold deviation. rewrite (div_nonzero _ _ H). reflexivity.
Qed.

Lemma deviation_zero (calc target : Q) :
  target == 0 -> deviation calc target = Raise ZeroDivisionError.
Proof.
  intro H. unfold deviation. rewrite (div_zero _ _ H). reflexivity.
Qed.

(** The three branches of the comparison. *)
Lemma check_nutrient_cases (tolerance calc target : Q) :
  let low := target * (1 - tolerance) in
  let high := target * (1 + tolerance) in
  (low <= calc /\ calc <= high
   /\ check_nutrient tolerance calc target = Ok StatusOK)
  \/ (calc < low
      /\ check_nutrient tolerance calc target
         = (d <- deviation calc target ;; Ok (StatusLOW d)))
  \/ (low <= calc /\ high < calc
      /\ check_nutrient tolerance calc target
         = (d <- deviation calc target ;; Ok (StatusHIGH d))).
Proof.
  intros low high. unfold check_nutrient. fold low high.
  destruct (Py.le low calc) eqn:E1.
  - apply le_iff in E1. destruct (Py.le calc high) eqn:E2.
    + apply le_iff in E2. left. auto.
    + apply le_false_iff in E2. right. right. cbn [andb].
      assert (E3 : Py.lt calc low = false) by (apply lt_false_iff; exact E1).
      rewrite E3. auto.
  - apply le_false_iff in E1. right. left. cbn [andb].
    assert (E3 : Py.lt calc low = true) by (apply lt_iff; exact E1).
    rewrite E3. auto.
Qed.

Lemma bind_deviation_not_ok (V T : Q) (k : Q -> Status) :
  (forall d, k d <> StatusOK) ->
  (d <- deviation V T ;; Ok (k d)) <> Ok StatusOK.
Proof.
  intros Hk. destruct (deviation V T) as [d|e]; cbn [bind].
  - intro E. injection E as E. apply (Hk d E).
  - discriminate.
Qed.

(** A nutrient with a numeric target is never reported N/A. *)
Lemma check_nutrient_not_na (tolerance calc target : Q) (s : Status) :
  check_nutrient tolerance calc target = Ok s -> s <> StatusNA.
Proof.
  destruct (check_nutrient_cases tolerance calc target)
    as [(_ & _ & E)|[(_ & E)|(_ & _ & E)]]; rewrite E;
    [intro H; injection H as <-; discriminate| |];
    destruct (deviation calc target); cbn [bind]; intro H;
    try discriminate; injection H as <-; discriminate.
Qed.

End Tolerance.

(** ** C2: the tolerance check *)

Section FloatOrder.

Lemma SFcompare_antisym (a b : spec_float) :
  SFcompare b a = option_map CompOpp (SFcompare a b).
Proof.
  destruct a as [sa|sa| |sa ma ea], b as [sb|sb| |sb mb eb];
    cbn [SFcompare option_map]; try reflexivity;
    try (destruct sa; reflexivity); try (destruct sb; reflexivity);
    try (destruct sa, sb; reflexivity).
  destruct sa, sb; cbn [CompOpp]; try reflexivity;
    rewrite (Z.compare_antisym ea eb);
    destruct (ea ?= eb)%Z; cbn [CompOpp]; try reflexivity;
    rewrite (Pos.compare_cont_antisym ma mb Eq); cbn [CompOpp];
    reflexivity.
Qed.

(** On floats, [x < y] rules out [y <= x]. *)
Lemma ltb_not_leb (x y : PrimFloat.float) :
  PrimFloat.ltb x y = true -> PrimFloat.leb y x = false.
Proof.
  rewrite ltb_spec, leb_spec. unfold SFltb, SFleb.
  rewrite (SFcompare_antisym (Prim2SF x) (Prim2SF y)).
  destruct (SFcompare (Prim2SF x) (Prim2SF y)) as [[| |]|];
    cbn [option_map CompOpp]; congruence.
Qed.

Lemma binary64_deviation (calc target : PrimFloat.float) :
  PrimFloat.eqb target 0 = false ->
  Binary64.deviation calc target
  = Ok (PrimFloat.mul (PrimFloat.div (PrimFloat.sub calc target) target) 100).
Proof.
  intro H. unfold Binary64.deviation, Binary64.div. now rewrite H.
Qed.

End FloatOrder.

(** C2, as the code has it.  On the binary64 numbers of the program, and
    with the two bounds as the program computes them, each operation
    rounded: the status is OK exactly when the value is at least the
    computed lower bound and at most the computed upper bound.  For a
    target other than zero, a value under the computed lower bound is LOW
    and a value over the computed upper bound and not under the lower one
    is HIGH, each with the deviation [((V - T) / T) * 100] computed in
    binary64, printed to one decimal, after a plus sign for HIGH. *)
Theorem tolerance_status_on_computed_bounds :
  forall T tau V : PrimFloat.float,
    let lo := Binary64.low (PrimFloat.div tau 100) T in
    let hi := Binary64.high (PrimFloat.div tau 100) T in
    let dev :=
      PrimFloat.mul (PrimFloat.div (PrimFloat.sub V T) T) 100 in
    (Binary64.nutrient_status T tau V = Ok Binary64.StatusOK
     <-> PrimFloat.leb lo V = true /\ PrimFloat.leb V hi = true)
    /\ (PrimFloat.eqb T 0 = false ->
        PrimFloat.ltb V lo = true ->
        Binary64.nutrient_status T tau V = Ok (Binary64.StatusLOW dev))
    /\ (PrimFloat.eqb T 0 = false ->
        PrimFloat.ltb hi V = true ->
        PrimFloat.ltb V lo = false ->
        Binary64.nutrient_status T tau V = Ok (Binary64.StatusHIGH dev))
    /\ Binary64.status_text (Binary64.StatusLOW dev)
       = "ðŸ”» LOW (" ++ Binary64.format_f 1 dev ++ "%)"
    /\ Binary64.status_text (Binary64.StatusHIGH dev)
       = "ðŸ”º HIGH (+" ++ Binary64.format_f 1 dev ++ "%)".
Proof.
  intros T tau V lo hi dev.
  unfold Binary64.nutrient_status, Binary64.check_nutrient.
  fold lo hi.
  split; [|split; [|split; [|split; reflexivity]]].
  - destruct (PrimFloat.leb lo V) eqn:E1, (PrimFloat.leb V hi) eqn:E2;
      cbn [andb]; split; try tauto; try (intros [? ?]; discriminate);
      intro H; exfalso; revert H;
      destruct (PrimFloat.ltb V lo);
      destruct (Binary64.deviation V T); cbn [bind]; discriminate.
  - intros HT Hlt.
    rewrite (ltb_not_leb V lo Hlt). cbn [andb].
    rewrite Hlt, (binary64_deviation V T HT). reflexivity.
  - intros HT Hgt Hlt.
    rewrite (ltb_not_leb hi V Hgt), andb_false_r.
    rewrite Hlt, (binary64_deviation V T HT). reflexivity.
Qed.

(** The scenarios of the specification, on floats: 3100 against 3000 at
    10 percent is within the window, 2500 is low by a sixth, 3400 is
    high. *)
Lemma tolerance_status_on_computed_bounds_witness :
  Binary64.nutrient_status 3000 10 3100 = Ok Binary64.StatusOK
  /\ Binary64.nutrient_status 3000 10 2500
     = Ok (Binary64.StatusLOW
             (PrimFloat.mul
                (PrimFloat.div (PrimFloat.sub 2500 3000) 3000) 100))
  /\ Binary64.nutrient_status 3000 10 3400
     = Ok (Binary64.StatusHIGH
             (PrimFloat.mul
                (PrimFloat.div (PrimFloat.sub 3400 3000) 3000) 100)).
Proof.
  split; [|split].
  - apply (tolerance_status_on_computed_bounds 3000 10 3100).
    split; reflexivity.
  - apply (tolerance_status_on_computed_bounds 3000 10 2500); reflexivity.
  - apply (tolerance_status_on_computed_bounds 3000 10 3400); reflexivity.
Defined.

(** C2 as stated fails on a value that sits on the upper bound.  With
    target 3000 and tolerance 15 the window of the claim ends at 3450,
    bound included; the program computes the bound as
    [3000 * (1 + 15 / 100.0)], which is 3449.9999999999995 in binary64,
    and reports 3450 as HIGH, by 15.0 percent. *)
Lemma value_on_the_upper_bound_is_high :
  ~ tolerance_claim 3000 15 3450
  /\ Binary64.nutrient_status 3000 15 3450 = Ok (Binary64.StatusHIGH 15)
  /\ Binary64.status_text (Binary64.StatusHIGH 15) = "ðŸ”º HIGH (+15.0%)".
Proof.
  split; [|split; reflexivity].
  intro H.
  destruct (H 3000 15 3450 eq_refl eq_refl eq_refl) as [[_ Hok] _].
  assert (Hin : in_window 3000 15 3450) by (split; discriminate).
  specialize (Hok Hin). vm_compute in Hok. discriminate.
Qed.

(** ** C3: the verdict *)

Section Verdict.


(** What the comparison loop adds to its two accumulators. *)
Lemma compare_loop_inv (tolerance : Q) (data : list (string * Q * option Q)) :
  forall rows0 v0 rows v,
    compare_loop tolerance data rows0 v0 = Ok (rows, v) ->
    exists new : list CompRow,
      rows = (rows0 ++ new)%list
      /\ map (fun r => (label r, calc r, target r)) new = data
      /\ Forall (row_checked tolerance) new
      /\ v = if existsb (fun r => is_fail (status r)) new
             then "FAIL" else v0.
Proof.
  induction data as [|[[l c] [t|]] rest IH]; intros rows0 v0 rows v H;
    cbn [compare_loop] in H.
  - injection H as <- <-. exists []. rewrite app_nil_r. auto.
  - destruct (check_nutrient tolerance c t) as [s|e] eqn:E;
      cbn [bind] in H; [|discriminate].
    apply IH in H. destruct H as (new & -> & Hm & Hf & ->).
    exists (mkCompRow l c (Some t) s :: new).
    rewrite <- app_assoc. cbn [app map existsb label calc target status].
    repeat split.
    + now rewrite Hm.
    + constructor; [exact E|exact Hf].
    + destruct (is_fail s), (existsb _ new); reflexivity.
  - apply IH in H. destruct H as (new & -> & Hm & Hf & ->).
    exists (mkCompRow l c None StatusNA :: new).
    rewrite <- app_assoc. cbn [app map existsb label calc target status].
    repeat split.
    + now rewrite Hm.
    + constructor; [reflexivity|exact Hf].
Qed.

(** The verdict does not depend on the rows gathered so far. *)
Lemma verdict_ignores_rows (tolerance : Q)
      (data : list (string * Q * option Q)) :
  forall rows1 rows2 v0,
    verdict_of (compare_loop tolerance data rows1 v0)
    = verdict_of (compare_loop tolerance data rows2 v0).
Proof.
  induction data as [|[[l c] [t|]] rest IH]; intros rows1 rows2 v0;
    cbn [compare_loop].
  - reflexivity.
  - destruct (check_nutrient tolerance c t); cbn [bind];
      [apply IH|reflexivity].
  - apply IH.
Qed.

(** An entry without target can be dropped from the comparison: the
    verdict, or the error, is the same. *)
Lemma verdict_skips_na (tolerance : Q) (l : string) (c : Q)
      (before after : list (string * Q * option Q)) :
  forall rows0 v0,
    verdict_of (compare_loop tolerance (before ++ (l, c, None) :: after)
                             rows0 v0)
    = verdict_of (compare_loop tolerance (before ++ after) rows0 v0).
Proof.
  induction before as [|[[l' c'] [t|]] rest IH]; intros rows0 v0;
    cbn [app compare_loop].
  - apply verdict_ignores_rows.
  - destruct (check_nutrient tolerance c' t); cbn [bind];
      [apply IH|reflexivity].
  - apply IH.
Qed.

Lemma existsb_false_iff {A : Type} (f : A -> bool) (l : list A) :
  existsb f l = false <-> forall x, In x l -> f x = false.
Proof.
  split.
  - intros H x Hx. destruct (f x) eqn:E; [|reflexivity].
    rewrite <- H. symmetry. apply existsb_exists. eauto.
  - intro H. destruct (existsb f l) eqn:E; [|reflexivity].
    apply existsb_exists in E. destruct E as (x & Hx & Hfx).
    rewrite (H x Hx) in Hfx. discriminate.
Qed.

(** With no zero among the numeric targets the loop runs to its end. *)
Lemma compare_loop_returns (tolerance : Q)
      (data : list (string * Q * option Q)) :
  (forall l c t, In (l, c, Some t) data -> ~ t == 0) ->
  forall rows0 v0,
    exists rows v, compare_loop tolerance data rows0 v0 = Ok (rows, v).
Proof.
  induction data as [|[[l c] [t|]] rest IH]; intros Hnz rows0 v0;
    cbn [compare_loop].
  - eauto.
  - assert (Ht : ~ t == 0) by (apply (Hnz l c t); left; reflexivity).
    assert (Hs : exists s, check_nutrient tolerance c t = Ok s).
    { destruct (check_nutrient_cases tolerance c t)
        as [(_ & _ & E)|[(_ & E)|(_ & _ & E)]]; rewrite E;
        try rewrite (deviation_nonzero _ _ Ht); cbn [bind]; eauto. }
    destruct Hs as [s ->]. cbn [bind].
    apply IH. intros l' c' t' H. apply (Hnz l' c' t'). right. exact H.
  - apply IH. intros l' c' t' H. apply (Hnz l' c' t'). right. exact H.
Qed.

End Verdict.

(** C3.  In a report the verdict is PASS exactly when no row with a
    numeric target is LOW or HIGH, and is FAIL otherwise; the rows are the
    five nutrients against the animal's targets; a row has status N/A
    exactly when its target is absent; leaving an entry without target out
    of the comparison never changes the verdict; and the comparison reaches
    a verdict whenever no numeric target is zero. *)
Theorem verdict_pass_iff_no_low_or_high :
  (forall float ratio standards_df feeds_df args rep,
      cmd_check float ratio standards_df feeds_df args = Ok rep ->
      (overall_status rep = "PASS"
       <-> forall row, In row (comp_rows rep) -> target row <> None ->
                       is_fail (status row) = false)
      /\ (overall_status rep = "PASS" \/ overall_status rep = "FAIL")
      /\ (forall row, In row (comp_rows rep) ->
                      (target row = None <-> status row = StatusNA))
      /\ exists animal_std,
          lookup_animal ratio standards_df (animal args) = Ok animal_std
          /\ map (fun r => (label r, calc r, target r)) (comp_rows rep)
             = comparison_data (total_nutrients rep) animal_std)
  /\ (forall tolerance l c before after,
         verdict_of (compare_loop tolerance (before ++ (l, c, None) :: after)
                                  [] "PASS")
         = verdict_of (compare_loop tolerance (before ++ after) [] "PASS"))
  /\ (forall tolerance data,
         (forall l c t, In (l, c, Some t) data -> ~ t == 0) ->
         exists rows verdict,
           compare_loop tolerance data [] "PASS" = Ok (rows, verdict)).
Proof.
  split; [|split; [intros; apply verdict_skips_na
                  |intros tolerance data H; apply compare_loop_returns, H]].
  intros float ratio standards_df feeds_df args rep H.
  apply cmd_check_steps in H.
  destruct H as (animal_std & _ & _ & Ha & _ & _ & _ & _ & Hc).
  apply compare_loop_inv in Hc. cbn [app] in Hc.
  destruct Hc as (new & -> & Hm & Hf & Hv).
  rewrite Forall_forall in Hf.
  assert (Hna : forall row, In row new ->
                            (target row = None <-> status row = StatusNA)).
  { intros row Hrow. specialize (Hf row Hrow). unfold row_checked in Hf.
    destruct (target row) as [t|].
    - split; [discriminate|]. intro E. rewrite E in Hf.
      apply check_nutrient_not_na in Hf. contradiction.
    - split; auto. }
  repeat split.
  - intros Hp row Hrow _. rewrite Hv in Hp.
    destruct (existsb _ new) eqn:E; [discriminate|].
    apply (proj1 (existsb_false_iff _ _) E row Hrow).
  - intro Hall. rewrite Hv.
    assert (E : existsb (fun r => is_fail (status r)) new = false).
    { apply existsb_false_iff. intros row Hrow.
      destruct (target row) as [t|] eqn:Et.
      - apply Hall; [assumption|congruence].
      - apply Hna in Et; [|assumption]. now rewrite Et. }
    now rewrite E.
  - rewrite Hv. destruct (existsb _ new); auto.
  - apply Hna; assumption.
  - apply Hna; assumption.
  - exists animal_std. split; assumption.
Qed.

(** A sample ration that fails on protein, calcium and phosphorus, with
    lysine unchecked. *)
Lemma verdict_pass_iff_no_low_or_high_witness :
  exists rep,
    Sample.check "BROILER" "CORN:60,SOY:38,LIME:2" = Ok rep
    /\ overall_status rep = "FAIL"
    /\ (overall_status rep = "PASS"
        <-> forall row, In row (comp_rows rep) -> target row <> None ->
                        is_fail (status row) = false).
Proof.
  eexists. split; [vm_compute; reflexivity|].
  split; [reflexivity|].
  apply (proj1 verdict_pass_iff_no_low_or_high
               Decimal.float Difflib.ratio Sample.standards_df Sample.feeds_df
               (mkCheckArgs "BROILER" "CORN:60,SOY:38,LIME:2")).
  vm_compute. reflexivity.
Defined.

(** ** C8: the resolver *)

Section Suggestions.


Lemma tuple_le_score (p q : Q * string) :
  Difflib.tuple_le p q = true -> fst p <= fst q.
Proof.
  unfold Difflib.tuple_le. rewrite orb_true_iff, andb_true_iff.
  intros [H|[H _]].
  - apply lt_iff in H. apply Qlt_le_weak. exact H.
  - apply Qeq_bool_iff in H. rewrite H. apply Qle_refl.
Qed.

Lemma tuple_le_false_score (p q : Q * string) :
  Difflib.tuple_le p q = false -> fst q <= fst p.
Proof.
  unfold Difflib.tuple_le. rewrite orb_false_iff.
  intros [H _]. apply lt_false_iff in H. exact H.
Qed.

Lemma In_insert_desc (p x : Q * string) (l : list (Q * string)) :
  In x (Difflib.insert_desc p l) <-> x = p \/ In x l.
Proof.
  induction l as [|q rest IH]; cbn [Difflib.insert_desc].
  - cbn [In]. intuition congruence.
  - destruct (Difflib.tuple_le q p); cbn [In].
    + intuition congruence.
    + rewrite IH. intuition congruence.
Qed.

Lemma insert_desc_sorted (p : Q * string) (l : list (Q * string)) :
  StronglySorted by_score l ->
  StronglySorted by_score (Difflib.insert_desc p l).
Proof.
  induction 1 as [|q rest Hs IH Hq]; cbn [Difflib.insert_desc].
  - constructor; constructor.
  - destruct (Difflib.tuple_le q p) eqn:E.
    + apply tuple_le_score in E.
      constructor; [constructor; assumption|].
      constructor; [exact E|].
      rewrite Forall_forall in Hq |- *. intros x Hx.
      unfold by_score in *. apply Qle_trans with (fst q); auto.
    + apply tuple_le_false_score in E.
      constructor; [exact IH|].
      rewrite Forall_forall in Hq |- *. intros x Hx.
      apply In_insert_desc in Hx. destruct Hx as [->|Hx]; auto.
Qed.

Lemma sorted_desc_sorted (l : list (Q * string)) :
  StronglySorted by_score (Difflib.sorted_desc l).
Proof.
  induction l as [|p rest IH]; cbn [Difflib.sorted_desc fold_right].
  - constructor.
  - apply insert_desc_sorted. exact IH.
Qed.

Lemma In_sorted_desc (x : Q * string) (l : list (Q * string)) :
  In x (Difflib.sorted_desc l) <-> In x l.
Proof.
  induction l as [|p rest IH]; cbn [Difflib.sorted_desc fold_right].
  - reflexivity.
  - fold (Difflib.sorted_desc rest). rewrite In_insert_desc, IH.
    cbn [In]. intuition congruence.
Qed.

Lemma In_firstn {A : Type} (n : nat) (l : list A) (x : A) :
  In x (firstn n l) -> In x l.
Proof.
  revert l. induction n as [|n IH]; intros l; cbn [firstn].
  - intros [].
  - destruct l as [|y l]; cbn [In]; [auto|].
    intros [->|H]; auto.
Qed.

Lemma firstn_sorted {A : Type} (R : A -> A -> Prop) (n : nat) (l : list A) :
  StronglySorted R l -> StronglySorted R (firstn n l).
Proof.
  intro H. revert n.
  induction H as [|y l Hs IH Hy]; intros [|n]; cbn [firstn];
    try constructor.
  - apply IH.
  - rewrite Forall_forall in Hy |- *. intros x Hx.
    apply Hy. apply In_firstn with n. exact Hx.
Qed.

Variable ratio : string -> string -> Q.

(** Every scored pair carries the score of its string, at or above the
    cutoff. *)
Lemma candidates_spec (word : string) (cutoff : Q)
      (possibilities : list string) (p : Q * string) :
  In p (Difflib.candidates ratio word possibilities cutoff) ->
  fst p = ratio (snd p) word /\ cutoff <= fst p /\ In (snd p) possibilities.
Proof.
  induction possibilities as [|x rest IH]; cbn [Difflib.candidates].
  - intros [].
  - destruct (Py.ge (ratio x word) cutoff) eqn:E.
    + apply ge_iff in E. cbn [In]. intros [<-|H]; cbn [fst snd]; auto.
      destruct (IH H) as (? & ? & ?). auto.
    + intro H. destruct (IH H) as (? & ? & ?). cbn [In]. auto.
Qed.

Lemma get_close_matches_spec (word : string) (possibilities : list string)
      (n : nat) (cutoff : Q) :
  let s := Difflib.get_close_matches ratio word possibilities n cutoff in
  (List.length s <= n)%nat
  /\ Forall (fun x => In x possibilities /\ cutoff <= ratio x word) s
  /\ descending (map (fun x => ratio x word) s).
Proof.
  cbv zeta. unfold Difflib.get_close_matches, Difflib.nlargest.
  set (c := Difflib.candidates ratio word possibilities cutoff).
  assert (Hin : forall p, In p (firstn n (Difflib.sorted_desc c)) ->
                          fst p = ratio (snd p) word /\ cutoff <= fst p
                          /\ In (snd p) possibilities).
  { intros p Hp. apply In_firstn in Hp. apply (proj1 (In_sorted_desc _ _)) in Hp.
    apply candidates_spec in Hp. exact Hp. }
  pose proof (firstn_sorted by_score n _ (sorted_desc_sorted c)) as Hs.
  split; [rewrite length_map; apply firstn_le_length|].
  revert Hin Hs. generalize (firstn n (Difflib.sorted_desc c)) as l.
  intros l Hin Hs. split.
  - apply Forall_forall. intros x Hx. apply in_map_iff in Hx.
    destruct Hx as (p & <- & Hp). destruct (Hin p Hp) as (E & Hc & Hi).
    rewrite <- E. auto.
  - unfold descending. rewrite map_map.
    induction Hs as [|p l Hs IH Hp]; cbn [map]; constructor.
    + apply IH. intros q Hq. apply Hin. right. exact Hq.
    + rewrite Forall_forall in Hp |- *. intros y Hy.
      apply in_map_iff in Hy. destruct Hy as (q & <- & Hq).
      destruct (Hin p (or_introl eq_refl)) as (Ep & _).
      destruct (Hin q (or_intror Hq)) as (Eq' & _).
      rewrite <- Ep, <- Eq'. apply (Hp q Hq).
Qed.

End Suggestions.

Section Lookup.

Lemma filter_first {A : Type} (f : A -> bool) (l : list A) (x : A)
      (rest : list A) :
  filter f l = x :: rest ->
  exists before after,
    l = (before ++ x :: after)%list
    /\ Forall (fun r => f r = false) before
    /\ f x = true.
Proof.
  induction l as [|y l IH]; cbn [filter]; [discriminate|].
  destruct (f y) eqn:E.
  - intro H. injection H as -> _. exists [], l. auto.
  - intro H. destruct (IH H) as (before & after & -> & Hb & Hx).
    exists (y :: before), after. auto.
Qed.

Lemma filter_none {A : Type} (f : A -> bool) (l : list A) :
  filter f l = [] <-> forall x, In x l -> f x = false.
Proof.
  induction l as [|y l IH]; cbn [filter In].
  - intuition.
  - destruct (f y) eqn:E.
    + split; [discriminate|]. intro H.
      rewrite (H y (or_introl eq_refl)) in E. discriminate.
    + rewrite IH. split.
      * intros H x [<-|Hx]; auto.
      * intros H x Hx. apply H. auto.
Qed.

Variable ratio : string -> string -> Q.

Lemma lookup_feed_found (feeds_df : list Feed) (id : string) (row : Feed) :
  In row feeds_df -> Feed_ID row = id ->
  exists before found after,
    lookup_feed ratio feeds_df id = Ok found
    /\ feeds_df = (before ++ found :: after)%list
    /\ Feed_ID found = id
    /\ Forall (fun r => Feed_ID r <> id) before.
Proof.
  intros Hin Hid. unfold lookup_feed.
  destruct (filter (fun r => String.eqb (Feed_ID r) id) feeds_df)
    as [|found rest] eqn:E.
  - exfalso. rewrite filter_none in E. specialize (E row Hin).
    apply String.eqb_neq in E. contradiction.
  - apply filter_first in E. destruct E as (before & after & -> & Hb & Hf).
    exists before, found, after. repeat split.
    + apply String.eqb_eq. exact Hf.
    + revert Hb. apply Forall_impl. intros r. apply String.eqb_neq.
Qed.

Lemma lookup_feed_missing (feeds_df : list Feed) (id : string) :
  (forall row, In row feeds_df -> Feed_ID row <> id) ->
  lookup_feed ratio feeds_df id
  = Raise (SystemExit
             (not_found_msg "Feed" id
                (find_similar_id ratio id (map Feed_ID feeds_df)))).
Proof.
  intro H. unfold lookup_feed.
  assert (E : filter (fun r => String.eqb (Feed_ID r) id) feeds_df = []).
  { apply filter_none. intros x Hx. apply String.eqb_neq. auto. }
  now rewrite E.
Qed.

Lemma lookup_animal_found (standards_df : list Standard) (id : string)
      (row : Standard) :
  In row standards_df -> Animal_ID row = id ->
  exists before found after,
    lookup_animal ratio standards_df id = Ok found
    /\ standards_df = (before ++ found :: after)%list
    /\ Animal_ID found = id
    /\ Forall (fun r => Animal_ID r <> id) before.
Proof.
  intros Hin Hid. unfold lookup_animal.
  destruct (filter (fun r => String.eqb (Animal_ID r) id) standards_df)
    as [|found rest] eqn:E.
  - exfalso. rewrite filter_none in E. specialize (E row Hin).
    apply String.eqb_neq in E. contradiction.
  - apply filter_first in E. destruct E as (before & after & -> & Hb & Hf).
    exists before, found, after. repeat split.
    + apply String.eqb_eq. exact Hf.
    + revert Hb. apply Forall_impl. intros r. apply String.eqb_neq.
Qed.

Lemma lookup_animal_missing (standards_df : list Standard) (id : string) :
  (forall row, In row standards_df -> Animal_ID row <> id) ->
  lookup_animal ratio standards_df id
  = Raise (SystemExit
             (not_found_msg "Animal" id
                (find_similar_id ratio id (map Animal_ID standards_df)))).
Proof.
  intro H. unfold lookup_animal.
  assert (E : filter (fun r => String.eqb (Animal_ID r) id) standards_df
              = []).
  { apply filter_none. intros x Hx. apply String.eqb_neq. auto. }
  now rewrite E.
Qed.

End Lookup.

(** C8.  A lookup whose identifier is in the key column returns the first
    row that carries it, letter case included, and computes no suggestion.
    When no row carries it the lookup stops with the suggestions of
    [find_similar_id]: at most three, each one an identifier of the table
    whose similarity to the target is at least 0.6, in descending order of
    similarity. *)
Theorem exact_match_first_then_bounded_suggestions :
  forall ratio : string -> string -> Q,
    (forall feeds_df id row,
        In row feeds_df -> Feed_ID row = id ->
        exists before found after,
          lookup_feed ratio feeds_df id = Ok found
          /\ feeds_df = (before ++ found :: after)%list
          /\ Feed_ID found = id
          /\ Forall (fun r => Feed_ID r <> id) before)
    /\ (forall standards_df id row,
           In row standards_df -> Animal_ID row = id ->
           exists before found after,
             lookup_animal ratio standards_df id = Ok found
             /\ standards_df = (before ++ found :: after)%list
             /\ Animal_ID found = id
             /\ Forall (fun r => Animal_ID r <> id) before)
    /\ (forall feeds_df id,
           (forall row, In row feeds_df -> Feed_ID row <> id) ->
           lookup_feed ratio feeds_df id
           = Raise (SystemExit
                      (not_found_msg "Feed" id
                         (find_similar_id ratio id (map Feed_ID feeds_df)))))
    /\ (forall standards_df id,
           (forall row, In row standards_df -> Animal_ID row <> id) ->
           lookup_animal ratio standards_df id
           = Raise (SystemExit
                      (not_found_msg "Animal" id
                         (find_similar_id ratio id
                            (map Animal_ID standards_df)))))
    /\ (forall target available_ids,
           let similar := find_similar_id ratio target available_ids in
           (List.length similar <= 3)%nat
           /\ Forall (fun x => In x available_ids /\ 0.6 <= ratio x target)
                     similar
           /\ descending (map (fun x => ratio x target) similar)).
Proof.
  intro ratio.
  split; [|split; [|split; [|split]]].
  - apply lookup_feed_found.
  - apply lookup_animal_found.
  - apply lookup_feed_missing.
  - apply lookup_animal_missing.
  - intros word ids. apply (get_close_matches_spec ratio word ids 3 0.6).
Qed.

(** On the sample tables: SOY is found as written; in lower case it is
    not, and nothing is close enough to suggest; SOYA is not found either,
    and SOY is suggested. *)
Lemma exact_match_first_then_bounded_suggestions_witness :
  (exists before found after,
      lookup_feed Difflib.ratio Sample.feeds_df "SOY" = Ok found
      /\ Sample.feeds_df = (before ++ found :: after)%list
      /\ Feed_ID found = "SOY"
      /\ Forall (fun r => Feed_ID r <> "SOY") before)
  /\ lookup_feed Difflib.ratio Sample.feeds_df "soy"
     = Raise (SystemExit "Error: Feed ID 'soy' not found.")
  /\ lookup_feed Difflib.ratio Sample.feeds_df "SOYA"
     = Raise (SystemExit "Error: Feed ID 'SOYA' not found. Did you mean: SOY?").
Proof.
  split; [|split].
  - apply (proj1 (exact_match_first_then_bounded_suggestions Difflib.ratio)
                 Sample.feeds_df "SOY" Sample.soy).
    + right. left. reflexivity.
    + reflexivity.
  - rewrite (proj1 (proj2 (proj2
               (exact_match_first_then_bounded_suggestions Difflib.ratio)))).
    + reflexivity.
    + intros row [<-|[<-|[<-|[]]]]; discriminate.
  - reflexivity.
Defined.

(** ** C9, C10: the diet string *)

Section Diet.
Variable float : string -> option Q.
Variable ratio : string -> string -> Q.

Lemma unpack2_some (parts : list string) (a b : string) :
  Py.unpack2 parts = Some (a, b) <-> parts = [a; b].
Proof.
  destruct parts as [|x [|y [|z rest]]]; cbn [Py.unpack2];
    split; intro H; try discriminate; congruence.
Qed.

Lemma unpack2_none (parts : list string) :
  Py.unpack2 parts = None <-> List.length parts <> 2%nat.
Proof.
  destruct parts as [|x [|y [|z rest]]]; cbn [Py.unpack2 List.length];
    split; intro H; try discriminate; try congruence; try lia.
Qed.

(** The three ways through the [try] block, for any reader. *)
Lemma parse_entry_cases {N : Type} (reader : string -> option N)
      (entry : string) :
  (List.length (Py.split ":" entry) <> 2%nat
   /\ parse_entry reader entry = Raise (SystemExit (invalid_diet_msg entry)))
  \/ (exists f_id qty_str,
         Py.split ":" entry = [f_id; qty_str] /\ reader qty_str = None
         /\ parse_entry reader entry
            = Raise (SystemExit (invalid_diet_msg entry)))
  \/ (exists f_id qty_str qty,
         Py.split ":" entry = [f_id; qty_str] /\ reader qty_str = Some qty
         /\ parse_entry reader entry = Ok (f_id, qty)).
Proof.
  unfold parse_entry.
  destruct (Py.unpack2 (Py.split ":" entry)) as [[f_id qty_str]|] eqn:E.
  - apply unpack2_some in E. right.
    destruct (reader qty_str) as [qty|] eqn:Ef; [right|left]; eauto 6.
  - apply unpack2_none in E. left. auto.
Qed.

(** The quantities of the items are what the loop adds to [total_qty]. *)
Lemma parse_diet_total (feeds_df : list Feed) (diet_entries : list string) :
  forall diet_data0 total0 diet_data total_qty,
    parse_diet float ratio feeds_df diet_entries diet_data0 total0
    = Ok (diet_data, total_qty) ->
    exists items : list DietItem,
      diet_data = (diet_data0 ++ items)%list
      /\ List.length items = List.length diet_entries
      /\ total_qty == total0 + fold_right Qplus 0 (map Qty items).
Proof.
  induction diet_entries as [|entry rest IH];
    intros diet_data0 total0 diet_data total_qty H; cbn [parse_diet] in H.
  - injection H as <- <-. exists []. rewrite app_nil_r.
    cbn [map fold_right List.length]. repeat split. ring.
  - destruct (parse_entry float entry) as [[f_id qty]|] eqn:Ep;
      cbn [bind] in H; [|discriminate].
    destruct (lookup_feed ratio feeds_df f_id) as [feed_data|] eqn:El;
      cbn [bind] in H; [|discriminate].
    apply IH in H. destruct H as (items & -> & Hlen & Hq).
    eexists (_ :: items). rewrite <- app_assoc. cbn [app].
    split; [reflexivity|]. cbn [map fold_right List.length Qty].
    split; [now rewrite Hlen|]. rewrite Hq. ring.
Qed.

End Diet.

Section DietLoop.
Variable float : string -> option Q.
Variable ratio : string -> string -> Q.
Variable feeds_df : list Feed.

Lemma parse_diet_step (entry : string) (rest : list string)
      (diet_data : list DietItem) (total_qty : Q) :
  parse_diet float ratio feeds_df (entry :: rest) diet_data total_qty
  = (item <- resolve_entry float ratio feeds_df entry ;;
     parse_diet float ratio feeds_df rest (diet_data ++ [item])
                (total_qty + Qty item)).
Proof.
  cbn [parse_diet]. unfold resolve_entry.
  destruct (parse_entry float entry) as [[f_id qty]|e]; cbn [bind];
    [|reflexivity].
  destruct (lookup_feed ratio feeds_df f_id) as [feed_data|e]; reflexivity.
Qed.

Lemma parse_diet_items (diet_entries : list string) :
  forall diet_data0 total0 diet_data total_qty,
    parse_diet float ratio feeds_df diet_entries diet_data0 total0
    = Ok (diet_data, total_qty) ->
    exists items : list DietItem,
      diet_data = (diet_data0 ++ items)%list
      /\ Forall2 (fun entry item =>
                    resolve_entry float ratio feeds_df entry = Ok item)
                 diet_entries items.
Proof.
  induction diet_entries as [|entry rest IH];
    intros diet_data0 total0 diet_data total_qty H.
  - cbn [parse_diet] in H. injection H as <- <-.
    exists []. rewrite app_nil_r. split; [reflexivity|constructor].
  - rewrite parse_diet_step in H.
    destruct (resolve_entry float ratio feeds_df entry) as [item|e] eqn:E;
      cbn [bind] in H; [|discriminate].
    apply IH in H. destruct H as (items & -> & Hf).
    exists (item :: items). rewrite <- app_assoc.
    split; [reflexivity|constructor; assumption].
Qed.

Lemma parse_diet_of_items (diet_entries : list string)
      (items : list DietItem) :
  Forall2 (fun entry item => resolve_entry float ratio feeds_df entry = Ok item)
          diet_entries items ->
  forall diet_data0 total0,
    exists total_qty,
      parse_diet float ratio feeds_df diet_entries diet_data0 total0
      = Ok ((diet_data0 ++ items)%list, total_qty)
      /\ total_qty == total0 + sum_qty items.
Proof.
  induction 1 as [|entry item rest items Hr Hf IH]; intros diet_data0 total0.
  - exists total0. cbn [parse_diet]. rewrite app_nil_r.
    split; [reflexivity|]. unfold sum_qty. cbn [map fold_right]. ring.
  - rewrite parse_diet_step, Hr. cbn [bind].
    destruct (IH (diet_data0 ++ [item])%list (total0 + Qty item))
      as (total_qty & E & Hq).
    exists total_qty. rewrite E, <- app_assoc.
    split; [reflexivity|]. rewrite Hq. unfold sum_qty.
    cbn [map fold_right]. ring.
Qed.

Lemma parse_diet_first_failure (good : list string) :
  Forall (fun entry =>
            exists item, resolve_entry float ratio feeds_df entry = Ok item)
         good ->
  forall bad rest e diet_data total_qty,
    resolve_entry float ratio feeds_df bad = Raise e ->
    parse_diet float ratio feeds_df (good ++ bad :: rest) diet_data total_qty
    = Raise e.
Proof.
  induction 1 as [|entry good [item Hr] Hg IH];
    intros bad rest e diet_data total_qty Hb; cbn [app];
    rewrite parse_diet_step.
  - now rewrite Hb.
  - rewrite Hr. cbn [bind]. apply IH. exact Hb.
Qed.

Lemma resolve_entry_parses (entry : string) (item : DietItem) :
  resolve_entry float ratio feeds_df entry = Ok item ->
  exists f_id qty, parse_entry float entry = Ok (f_id, qty).
Proof.
  unfold resolve_entry.
  destruct (parse_entry float entry) as [[f_id qty]|e]; cbn [bind];
    [eauto|discriminate].
Qed.

End DietLoop.


(** C9, as the code has it.  A token stops the program exactly when its
    split on the colon does not give two substrings or [float] rejects
    the second; the only error is the exit whose message quotes the token
    as written; a token with two substrings and an accepted quantity
    parses into the pair of identifier and quantity.  This holds for every
    token of the diet string: a diet is parsed only if each of its tokens
    parses, a token that fails anywhere in the string keeps the run from
    succeeding, and the first one reached ends it with its own message. *)
Theorem malformed_token_is_fatal_and_echoed :
  (forall (N : Type) (float : string -> option N) (entry : string),
      ((exists e, parse_entry float entry = Raise e)
       <-> (List.length (Py.split ":" entry) <> 2%nat
            \/ exists f_id qty_str,
                 Py.split ":" entry = [f_id; qty_str]
                 /\ float qty_str = None))
      /\ (forall e,
             parse_entry float entry = Raise e ->
             e = SystemExit ("Error: Invalid diet format '" ++ entry
                             ++ "'. Use 'FeedID:Quantity'."))
      /\ (forall f_id qty_str qty,
             Py.split ":" entry = [f_id; qty_str] ->
             float qty_str = Some qty ->
             parse_entry float entry = Ok (f_id, qty)))
  /\ (forall (float : string -> option Q) ratio feeds_df
             (diet_entries : list string),
         (forall diet_data total_qty,
             parse_diet float ratio feeds_df diet_entries [] 0
             = Ok (diet_data, total_qty) ->
             Forall (fun entry =>
                       exists f_id qty,
                         parse_entry float entry = Ok (f_id, qty))
                    diet_entries)
         /\ (forall entry,
                In entry diet_entries ->
                (exists e, parse_entry float entry = Raise e) ->
                exists e',
                  parse_diet float ratio feeds_df diet_entries [] 0
                  = Raise e')
         /\ (forall good bad rest e,
                diet_entries = (good ++ bad :: rest)%list ->
                Forall (fun entry =>
                          exists item,
                            resolve_entry float ratio feeds_df entry
                            = Ok item)
                       good ->
                parse_entry float bad = Raise e ->
                parse_diet float ratio feeds_df diet_entries [] 0
                = Raise (SystemExit
                           ("Error: Invalid diet format '" ++ bad
                            ++ "'. Use 'FeedID:Quantity'.")))).
Proof.
  assert (Hmsg : forall (N : Type) (float : string -> option N) entry e,
             parse_entry float entry = Raise e ->
             e = SystemExit (invalid_diet_msg entry)).
  { intros N float entry e He.
    destruct (parse_entry_cases float entry)
      as [(_ & E)|[(f & q & _ & _ & E)|(f & q & v & _ & _ & E)]];
      rewrite E in He; [| |discriminate]; injection He as <-; reflexivity. }
  split.
  - intros N float entry. split; [|split].
    + split.
      * intros [e He].
        destruct (parse_entry_cases float entry)
          as [(Hl & _)|[(f & q & Hs & Hf & _)|(f & q & v & _ & _ & E)]].
        -- left. exact Hl.
        -- right. eauto.
        -- rewrite E in He. discriminate.
      * intros [Hl|(f & q & Hs & Hf)];
          destruct (parse_entry_cases float entry)
          as [(Hl' & E)|[(f' & q' & Hs' & Hf' & E)
                        |(f' & q' & v & Hs' & Hf' & E)]];
          eauto.
        -- exfalso. apply Hl. rewrite Hs'. reflexivity.
        -- exfalso. rewrite Hs in Hs'. injection Hs' as <- <-. congruence.
    + intros e He. apply (Hmsg N float entry e He).
    + intros f_id qty_str qty Hs Hf. unfold parse_entry.
      rewrite Hs. cbn [Py.unpack2]. now rewrite Hf.
  - intros float ratio feeds_df diet_entries.
    assert (Hall : forall diet_data total_qty,
               parse_diet float ratio feeds_df diet_entries [] 0
               = Ok (diet_data, total_qty) ->
               Forall (fun entry =>
                         exists f_id qty,
                           parse_entry float entry = Ok (f_id, qty))
                      diet_entries).
    { intros diet_data total_qty H. apply parse_diet_items in H.
      destruct H as (items & _ & Hf).
      induction Hf as [|entry item rest items' Hr Hf IH]; constructor.
      - apply (resolve_entry_parses float ratio feeds_df entry item Hr).
      - exact IH. }
    split; [exact Hall|]. split.
    + intros entry Hin [e He].
      destruct (parse_diet float ratio feeds_df diet_entries [] 0)
        as [[diet_data total_qty]|e'] eqn:E; [|eauto].
      exfalso. pose proof (Hall diet_data total_qty eq_refl) as Hf.
      rewrite Forall_forall in Hf.
      destruct (Hf entry Hin) as (f & q & Hok).
      rewrite Hok in He. discriminate.
    + intros good bad rest e -> Hgood Hbad.
      pose proof (Hmsg Q float bad e Hbad) as ->.
      apply (parse_diet_first_failure float ratio feeds_df good Hgood).
      unfold resolve_entry. rewrite Hbad. reflexivity.
Qed.

(** Three tokens, one colon too many, a quantity that is no number and a
    well-formed one; and a diet whose second token is the bad one. *)
Lemma malformed_token_is_fatal_and_echoed_witness :
  (exists e, parse_entry Decimal.float "SOY:3:4" = Raise e)
  /\ (exists e, parse_entry Py.float "SOY:x" = Raise e)
  /\ parse_entry Decimal.float "SOY:38.5" = Ok ("SOY", 38.5)
  /\ parse_diet Decimal.float Difflib.ratio Sample.feeds_df
                ["CORN:60"; "SOY:x"; "LIME:2"] [] 0
     = Raise (SystemExit
                "Error: Invalid diet format 'SOY:x'. Use 'FeedID:Quantity'.").
Proof.
  split; [|split; [|split]].
  - apply (proj1 malformed_token_is_fatal_and_echoed Q
                 Decimal.float "SOY:3:4").
    left. discriminate.
  - apply (proj1 malformed_token_is_fatal_and_echoed Py.number
                 Py.float "SOY:x").
    right. exists "SOY", "x". split; reflexivity.
  - apply (proj2 (proj2 (proj1 malformed_token_is_fatal_and_echoed Q
                                 Decimal.float "SOY:38.5"))
                 "SOY" "38.5"); reflexivity.
  - apply (proj2 (proj2 (proj2 malformed_token_is_fatal_and_echoed
                                 Decimal.float Difflib.ratio Sample.feeds_df
                                 ["CORN:60"; "SOY:x"; "LIME:2"]))
                 ["CORN:60"] "SOY:x" ["LIME:2"]
                 (SystemExit (invalid_diet_msg "SOY:x"))).
    + reflexivity.
    + constructor; [|constructor]. eexists. reflexivity.
    + reflexivity.
Defined.

(** C9 as stated fails on a quantity that [float] accepts and that is not
    a real number: the token [CORN:nan] has its two substrings, [nan]
    denotes no real number, and the token is parsed, not refused. *)
Lemma quantity_that_is_no_real_number_is_accepted :
  ~ real_quantity_claim "CORN:nan"
  /\ parse_entry Py.float "CORN:nan" = Ok ("CORN", Py.NaN).
Proof.
  split; [|reflexivity].
  intros [_ H]. destruct H as [e He].
  - right. exists "CORN", "nan". split; [reflexivity|].
    intros q Hq. vm_compute in Hq. discriminate.
  - vm_compute in He. discriminate.
Qed.

(** C10.  No sign is tested on the way in.  A token with two substrings
    whose quantity reads as any number, negative or zero included, and
    whose feed is in the table, adds its item to the diet and its quantity
    to [total_qty]; the quantities of a parsed diet add up to [total_qty];
    an item moves every nutrient total by quantity times value over 100;
    and that contribution is negative for a negative quantity of a feed of
    positive value. *)
Theorem no_sign_check_on_quantity :
  forall (float : string -> option Q) (ratio : string -> string -> Q)
         (feeds_df : list Feed),
    (forall entry f_id qty_str qty feed_data rest diet_data total_qty,
        Py.split ":" entry = [f_id; qty_str] ->
        float qty_str = Some qty ->
        lookup_feed ratio feeds_df f_id = Ok feed_data ->
        parse_diet float ratio feeds_df (entry :: rest) diet_data total_qty
        = parse_diet float ratio feeds_df rest
            (diet_data ++ [mkDietItem (Feed_ID feed_data) (Name feed_data)
                                      qty feed_data])
            (total_qty + qty))
    /\ (forall diet_entries diet_data total_qty,
           parse_diet float ratio feeds_df diet_entries [] 0
           = Ok (diet_data, total_qty) ->
           List.length diet_data = List.length diet_entries
           /\ total_qty == fold_right Qplus 0 (map Qty diet_data))
    /\ (forall total item n,
           total_of n (add_item total item)
           = total_of n total + Qty item * value_of n (Data item) / 100)
    /\ (forall q value, q < 0 -> 0 < value -> contribution q value < 0).
Proof.
  intros float ratio feeds_df.
  split; [|split; [|split]].
  - intros entry f_id qty_str qty feed_data rest diet_data total_qty Hs Hf Hl.
    cbn [parse_diet]. unfold parse_entry.
    rewrite Hs. cbn [Py.unpack2]. rewrite Hf. cbn [bind].
    rewrite Hl. reflexivity.
  - intros diet_entries diet_data total_qty H.
    apply parse_diet_total in H. cbn [app] in H.
    destruct H as (items & -> & Hlen & Hq).
    split; [exact Hlen|]. rewrite Hq. ring.
  - intros total item n. destruct n; reflexivity.
  - intros q value Hq Hv. unfold contribution.
    assert (H : q * value < 0) by nra.
    unfold Qdiv. setoid_replace 0 with (0 * / 100) by ring.
    apply Qmult_lt_compat_r; [reflexivity|exact H].
Qed.

(** A diet of minus one hundred units of corn goes through, and every
    total is negative. *)
Lemma no_sign_check_on_quantity_witness :
  parse_diet Decimal.float Difflib.ratio Sample.feeds_df ["CORN:-100"] [] 0
  = Ok ([mkDietItem "CORN" "Yellow corn" (-100) Sample.corn], 0 + -100)
  /\ contribution (-100) (ME_per_kg Sample.corn) < 0.
Proof.
  split.
  - rewrite (proj1 (no_sign_check_on_quantity
                      Decimal.float Difflib.ratio Sample.feeds_df)
                   "CORN:-100" "CORN" "-100" (-100) Sample.corn);
      reflexivity.
  - apply (no_sign_check_on_quantity
             Decimal.float Difflib.ratio Sample.feeds_df);
      reflexivity.
Defined.

(** ** Scenarios of the specification *)

(** Totals 3100 and 17 against targets 3000 and 18 at 10 percent: both OK,
    verdict PASS. *)
Example scenario_within_tolerance :
  compare_loop (10 / 100.0)
               [("Metabolizable Energy (ME)", 3100, Some 3000);
                ("Crude Protein (CP %)", 17, Some 18)] [] "PASS"
  = Ok ([mkCompRow "Metabolizable Energy (ME)" 3100 (Some 3000) StatusOK;
         mkCompRow "Crude Protein (CP %)" 17 (Some 18) StatusOK], "PASS").
Proof. reflexivity. Qed.

(** A total of 2500 against 3000: LOW, shown as -16.7 percent, verdict
    FAIL. *)
Example scenario_low_energy :
  exists d,
    compare_loop (10 / 100.0) [("Metabolizable Energy (ME)", 2500, Some 3000)]
                 [] "PASS"
    = Ok ([mkCompRow "Metabolizable Energy (ME)" 2500 (Some 3000)
                     (StatusLOW d)], "FAIL")
    /\ Py.format_f 1 d = "-16.7".
Proof. eexists. split; vm_compute; reflexivity. Qed.

(** An unknown identifier with a close one in the table. *)
Example scenario_suggestion :
  lookup_animal Difflib.ratio
    [mkStandard "XYZ1" "Sample animal" 10 None None None None None] "XYZ"
  = Raise (SystemExit "Error: Animal ID 'XYZ' not found. Did you mean: XYZ1?").
Proof. reflexivity. Qed.

(** Quantities 50 and 60: the total of 110 is reported and the run goes
    on with the quantities as given. *)
Example scenario_not_normalized :
  exists rep,
    Sample.check "BROILER" "CORN:50,SOY:60" = Ok rep
    /\ In (TotalQuantityWarning (0 + 50 + 60)) (warnings rep)
    /\ List.length (table_rows rep) = 2%nat.
Proof.
  eexists. split; [vm_compute; reflexivity|].
  split; [left; reflexivity|reflexivity].
Qed.

(** From 20 percent down to 5: factor 4.00, 3.00 parts of water. *)
Example scenario_dilution :
  exists r,
    cmd_dilute 20 5 = Ok r
    /\ Py.format_f 2 (dilution_factor r) = "4.00"
    /\ Py.format_f 2 (water_parts r) = "3.00".
Proof. eexists. repeat split; vm_compute; reflexivity. Qed.

(** Three contributions of 0.004 each print as 0.00 in the table, yet the
    total keeps them: it is 0.012 and prints as 0.01. *)
Example scenario_rounding_only_at_display :
  let trace := mkFeed "TRACE" "Trace mix" 100 0 0.4 0 0 0 in
  let item := mkDietItem "TRACE" "Trace mix" 1 trace in
  nth 3 (table_row item) "" = "0.00"
  /\ CP (accumulate [item; item; item]) == 0.012
  /\ Py.format_f 2 (CP (accumulate [item; item; item])) = "0.01".
Proof. repeat split; vm_compute; reflexivity. Qed.

(** * Further properties of the code *)

(** ** The text of the diet *)

Lemma split_not_nil (sep : ascii) (s : string) : Py.split sep s <> [].
Proof.
  destruct s as [|c rest]; cbn [Py.split]; [discriminate|].
  destruct (Ascii.eqb c sep); [discriminate|].
  destruct (Py.split sep rest); discriminate.
Qed.

Lemma split_length (sep : ascii) (s : string) :
  List.length (Py.split sep s) = S (count_char sep s).
Proof.
  induction s as [|c rest IH]; cbn [Py.split count_char]; [reflexivity|].
  destruct (Ascii.eqb c sep).
  - cbn [List.length]. now rewrite IH.
  - destruct (Py.split sep rest) as [|field fields] eqn:E.
    + exfalso. apply (split_not_nil sep rest E).
    + cbn [List.length] in *. exact IH.
Qed.

Lemma split_fields_free (sep : ascii) (s : string) :
  Forall (fun field => count_char sep field = O) (Py.split sep s).
Proof.
  induction s as [|c rest IH]; cbn [Py.split].
  - constructor; [reflexivity|constructor].
  - destruct (Ascii.eqb c sep) eqn:Ec.
    + constructor; [reflexivity|exact IH].
    + destruct (Py.split sep rest) as [|field fields] eqn:E.
      * constructor; [|constructor]. cbn [count_char]. now rewrite Ec.
      * inversion IH as [|? ? Hf Hfs]; subst.
        constructor; [|exact Hfs]. cbn [count_char]. now rewrite Ec.
Qed.

Lemma split_join (sep : ascii) (s : string) :
  Py.join (String sep EmptyString) (Py.split sep s) = s.
Proof.
  induction s as [|c rest IH]; cbn [Py.split]; [reflexivity|].
  destruct (Ascii.eqb c sep) eqn:Ec.
  - apply Ascii.eqb_eq in Ec. subst c.
    destruct (Py.split sep rest) as [|field fields] eqn:E.
    + exfalso. apply (split_not_nil sep rest E).
    + cbn [Py.join String.append] in *. now rewrite IH.
  - destruct (Py.split sep rest) as [|field fields] eqn:E.
    + exfalso. apply (split_not_nil sep rest E).
    + destruct fields as [|f2 fs]; cbn [Py.join String.append] in *;
        now rewrite IH.
Qed.

(** A token is accepted only if it holds exactly one colon; the accepted
    token is the identifier, the colon and the text of the quantity, and
    neither part holds a colon.  With any other number of colons the token
    is fatal, whatever follows from [float]. *)
Theorem token_needs_exactly_one_colon :
  forall (float : string -> option Q) (entry : string),
    (count_char ":" entry <> 1%nat ->
     parse_entry float entry = Raise (SystemExit (invalid_diet_msg entry)))
    /\ (forall f_id qty,
           parse_entry float entry = Ok (f_id, qty) ->
           count_char ":" entry = 1%nat
           /\ exists qty_str,
               entry = f_id ++ ":" ++ qty_str
               /\ float qty_str = Some qty
               /\ count_char ":" f_id = O
               /\ count_char ":" qty_str = O).
Proof.
  intros float entry. split.
  - intro Hc.
    destruct (parse_entry_cases float entry)
      as [(_ & E)|[(f & q & Hs & _)|(f & q & v & Hs & _)]];
      [exact E| |]; exfalso; apply Hc;
      pose proof (split_length ":" entry) as Hl; rewrite Hs in Hl;
      cbn [List.length] in Hl; congruence.
  - intros f_id qty H.
    destruct (parse_entry_cases float entry)
      as [(_ & E)|[(f & q & _ & _ & E)|(f & q & v & Hs & Hf & E)]];
      rewrite E in H; try discriminate.
    injection H as <- <-.
    pose proof (split_length ":" entry) as Hl.
    pose proof (split_fields_free ":" entry) as Hfree.
    pose proof (split_join ":" entry) as Hj.
    rewrite Hs in Hl, Hfree, Hj. cbn [List.length] in Hl.
    pose proof (Forall_inv Hfree) as H1.
    pose proof (Forall_inv (Forall_inv_tail Hfree)) as H2.
    cbn beta in H1, H2.
    split; [congruence|]. exists q. cbn [Py.join] in Hj. auto.
Qed.

Lemma token_needs_exactly_one_colon_witness :
  parse_entry Decimal.float "SOY38"
  = Raise (SystemExit (invalid_diet_msg "SOY38"))
  /\ count_char ":" "SOY:38" = 1%nat.
Proof.
  split.
  - apply (token_needs_exactly_one_colon Decimal.float "SOY38"). discriminate.
  - apply (proj2 (token_needs_exactly_one_colon Decimal.float "SOY:38")
                 "SOY" 38). reflexivity.
Defined.

(** ** The loop over the entries *)

(** The diet is the list of its entries, one item per entry and in the
    same order: the loop succeeds exactly when every entry parses and
    names a feed of the table, and then [total_qty] is the sum of the
    quantities. *)
Theorem diet_items_follow_entries :
  forall float ratio feeds_df (diet_entries : list string),
    (forall diet_data total_qty,
        parse_diet float ratio feeds_df diet_entries [] 0
        = Ok (diet_data, total_qty) ->
        Forall2 (fun entry item =>
                   resolve_entry float ratio feeds_df entry = Ok item)
                diet_entries diet_data)
    /\ (forall items,
           Forall2 (fun entry item =>
                      resolve_entry float ratio feeds_df entry = Ok item)
                   diet_entries items ->
           exists total_qty,
             parse_diet float ratio feeds_df diet_entries [] 0
             = Ok (items, total_qty)
             /\ total_qty == sum_qty items).
Proof.
  intros float ratio feeds_df diet_entries. split.
  - intros diet_data total_qty H. apply parse_diet_items in H.
    destruct H as (items & -> & Hf). exact Hf.
  - intros items Hf.
    destruct (parse_diet_of_items float ratio feeds_df _ _ Hf [] 0)
      as (total_qty & E & Hq).
    exists total_qty. split; [exact E|]. rewrite Hq. ring.
Qed.

Lemma diet_items_follow_entries_witness :
  exists total_qty,
    parse_diet Decimal.float Difflib.ratio Sample.feeds_df
               ["CORN:60"; "SOY:40"] [] 0
    = Ok ([mkDietItem "CORN" "Yellow corn" 60 Sample.corn;
           mkDietItem "SOY" "Soybean meal" 40 Sample.soy], total_qty)
    /\ total_qty
       == sum_qty [mkDietItem "CORN" "Yellow corn" 60 Sample.corn;
                   mkDietItem "SOY" "Soybean meal" 40 Sample.soy].
Proof.
  apply (proj2 (diet_items_follow_entries
                  Decimal.float Difflib.ratio Sample.feeds_df
                  ["CORN:60"; "SOY:40"])).
  repeat constructor.
Defined.

(** Errors come in the order of the input: an unknown animal is reported
    whatever the diet; with a known animal, the first entry that does not
    parse or names no feed of the table ends the run with its own error,
    whatever comes after it. *)
Theorem errors_follow_input_order :
  forall float ratio standards_df feeds_df args,
    (forall e,
        lookup_animal ratio standards_df (animal args) = Raise e ->
        cmd_check float ratio standards_df feeds_df args = Raise e)
    /\ (forall animal_std good bad rest e,
           lookup_animal ratio standards_df (animal args) = Ok animal_std ->
           Py.split "," (diet args) = (good ++ bad :: rest)%list ->
           Forall (fun entry =>
                     exists item,
                       resolve_entry float ratio feeds_df entry = Ok item)
                  good ->
           resolve_entry float ratio feeds_df bad = Raise e ->
           cmd_check float ratio standards_df feeds_df args = Raise e).
Proof.
  intros float ratio standards_df feeds_df args. split.
  - intros e H. unfold cmd_check. now rewrite H.
  - intros animal_std good bad rest e Ha Hs Hg Hb.
    unfold cmd_check. rewrite Ha, Hs. cbn [bind].
    now rewrite (parse_diet_first_failure float ratio feeds_df good Hg
                                          bad rest e [] 0 Hb).
Qed.

Lemma errors_follow_input_order_witness :
  Sample.check "HORSE" "CORN:x"
  = Raise (SystemExit "Error: Animal ID 'HORSE' not found.")
  /\ Sample.check "BROILER" "CORN:60,SOYA:30,LIME:x"
     = Raise (SystemExit "Error: Feed ID 'SOYA' not found. Did you mean: SOY?").
Proof.
  split.
  - apply (proj1 (errors_follow_input_order
                    Decimal.float Difflib.ratio
                    Sample.standards_df Sample.feeds_df
                    (mkCheckArgs "HORSE" "CORN:x"))).
    reflexivity.
  - apply (proj2 (errors_follow_input_order
                    Decimal.float Difflib.ratio
                    Sample.standards_df Sample.feeds_df
                    (mkCheckArgs "BROILER" "CORN:60,SOYA:30,LIME:x"))
                 Sample.broiler ["CORN:60"] "SOYA:30" ["LIME:x"]).
    + reflexivity.
    + reflexivity.
    + constructor; [|constructor]. eexists. reflexivity.
    + reflexivity.
Defined.

(** An empty diet string, or one that starts with a comma, is refused for
    every known animal: its first token is empty and the run ends on the
    format error that quotes it. *)
Theorem empty_first_token_is_fatal :
  forall float ratio standards_df feeds_df args animal_std,
    lookup_animal ratio standards_df (animal args) = Ok animal_std ->
    diet args = "" \/ (exists rest, diet args = String "," rest) ->
    cmd_check float ratio standards_df feeds_df args
    = Raise (SystemExit "Error: Invalid diet format ''. Use 'FeedID:Quantity'.").
Proof.
  intros float ratio standards_df feeds_df args animal_std Ha Hd.
  assert (Hs : exists rest, Py.split "," (diet args) = "" :: rest).
  { destruct Hd as [->|[rest ->]]; cbn [Py.split Ascii.eqb Bool.eqb]; eauto. }
  destruct Hs as [rest Hs].
  unfold cmd_check. rewrite Ha, Hs. cbn [bind].
  rewrite parse_diet_step. reflexivity.
Qed.

Lemma empty_first_token_is_fatal_witness :
  Sample.check "BROILER" ""
  = Raise (SystemExit "Error: Invalid diet format ''. Use 'FeedID:Quantity'.").
Proof.
  apply (empty_first_token_is_fatal
           Decimal.float Difflib.ratio Sample.standards_df Sample.feeds_df
           (mkCheckArgs "BROILER" "") Sample.broiler).
  - reflexivity.
  - left. reflexivity.
Defined.

(** ** What a report holds *)

Section ReportFields.
Variable float : string -> option Q.
Variable ratio : string -> string -> Q.

Lemma cmd_check_report standards_df feeds_df args rep :
  cmd_check float ratio standards_df feeds_df args = Ok rep ->
  exists animal_std diet_data total_qty,
    lookup_animal ratio standards_df (animal args) = Ok animal_std
    /\ parse_diet float ratio feeds_df (Py.split "," (diet args)) [] 0
       = Ok (diet_data, total_qty)
    /\ warnings rep
       = ((if Py.gt (Qabs (total_qty - 100.0)) 0.1
           then [TotalQuantityWarning total_qty] else [])
          ++ inclusion_warnings diet_data)%list
    /\ description rep = Description animal_std
    /\ table_rows rep = map table_row diet_data
    /\ total_nutrients rep = accumulate diet_data
    /\ ca_p_in_range rep
       = Py.le 1.2 (ca_p_ratio rep) && Py.le (ca_p_ratio rep) 3.5.
Proof.
  unfold cmd_check. intro H.
  destruct (lookup_animal ratio standards_df (animal args))
    as [animal_std|] eqn:Ha; cbn [bind] in H; [|discriminate].
  destruct (parse_diet float ratio feeds_df (Py.split "," (diet args)) [] 0)
    as [[diet_data total_qty]|] eqn:Hd; cbn [bind] in H; [|discriminate].
  destruct (guarded_ratio (Ca (accumulate diet_data))
                          (P (accumulate diet_data)))
    as [ca_p|] eqn:Hr1; cbn [bind] in H; [|discriminate].
  destruct (guarded_ratio (ME (accumulate diet_data))
                          (CP (accumulate diet_data)))
    as [me_cp|] eqn:Hr2; cbn [bind] in H; [|discriminate].
  destruct (compare_loop (Tolerance_Pct animal_std / 100.0)
              (comparison_data (accumulate diet_data) animal_std) [] "PASS")
    as [[rows verdict]|] eqn:Hc; cbn [bind] in H; [|discriminate].
  injection H as <-.
  exists animal_std, diet_data, total_qty.
  cbn [warnings description table_rows total_nutrients ca_p_in_range
       ca_p_ratio].
  repeat split; assumption.
Qed.

End ReportFields.

(** A report has one table row of six cells per entry of the diet string,
    that is one more than the string has commas, and five comparison rows,
    one per nutrient and in the fixed order. *)
Theorem report_has_a_row_per_entry_and_per_nutrient :
  forall float ratio standards_df feeds_df args rep,
    cmd_check float ratio standards_df feeds_df args = Ok rep ->
    List.length (table_rows rep) = S (count_char "," (diet args))
    /\ Forall (fun row => List.length row = 6%nat) (table_rows rep)
    /\ map label (comp_rows rep)
       = ["Metabolizable Energy (ME)"; "Crude Protein (CP %)";
          "Calcium (Ca %)"; "Phosphorus (P %)"; "Lysine (%)"].
Proof.
  intros float ratio standards_df feeds_df args rep H.
  pose proof (cmd_check_report _ _ _ _ _ _ H)
    as (animal_std & diet_data & total_qty & _ & Hd & _ & _ & Ht & _).
  apply cmd_check_steps in H.
  destruct H as (animal_std' & _ & _ & _ & _ & _ & _ & _ & Hc).
  apply parse_diet_total in Hd. destruct Hd as (items & Hi & Hlen & _).
  cbn [app] in Hi. subst items.
  apply compare_loop_inv in Hc. destruct Hc as (new & Hn & Hm & _).
  cbn [app] in Hn. rewrite Hn.
  split; [|split].
  - rewrite Ht, length_map, Hlen. apply split_length.
  - rewrite Ht. apply Forall_forall. intros row Hrow.
    apply in_map_iff in Hrow. destruct Hrow as (item & <- & _). reflexivity.
  - assert (E : map label new
                = map (fun x : string * Q * option Q => fst (fst x))
                      (map (fun r => (label r, calc r, target r)) new)).
    { rewrite map_map. reflexivity. }
    rewrite E, Hm. reflexivity.
Qed.

Lemma report_has_a_row_per_entry_and_per_nutrient_witness :
  exists rep,
    Sample.check "BROILER" "CORN:60,SOY:38,LIME:2" = Ok rep
    /\ List.length (table_rows rep) = 3%nat.
Proof.
  eexists. split; [vm_compute; reflexivity|].
  apply (report_has_a_row_per_entry_and_per_nutrient
           Decimal.float Difflib.ratio Sample.standards_df Sample.feeds_df
           (mkCheckArgs "BROILER" "CORN:60,SOY:38,LIME:2")).
  vm_compute. reflexivity.
Defined.

(** ** Warnings *)

Lemma In_inclusion_warnings (diet_data : list DietItem) (w : Warning) :
  In w (inclusion_warnings diet_data)
  <-> exists item,
      In item diet_data
      /\ Max_Inclusion_Pct (Data item) < Qty item
      /\ w = ConstraintWarning (Name (Data item)) (Qty item)
                               (Max_Inclusion_Pct (Data item)).
Proof.
  unfold inclusion_warnings. rewrite in_flat_map. split.
  - intros (item & Hi & Hw). exists item. split; [exact Hi|].
    destruct (Py.gt (Qty item) (Max_Inclusion_Pct (Data item))) eqn:E.
    + apply gt_iff in E. destruct Hw as [<-|[]]. auto.
    + destruct Hw.
  - intros (item & Hi & Hq & ->). exists item. split; [exact Hi|].
    apply gt_iff in Hq. rewrite Hq. left. reflexivity.
Qed.

(** The constraint warnings of a report: a feed is reported exactly when
    an entry of the diet takes it strictly above its maximal inclusion,
    with its name, the quantity as given and the maximum of the table; a
    quantity equal to the maximum raises none.  A warning about the total,
    when there is one, carries the [total_qty] of the parsing loop. *)
Theorem constraint_warnings_name_entries_over_maximum :
  forall float ratio standards_df feeds_df args rep,
    cmd_check float ratio standards_df feeds_df args = Ok rep ->
    exists diet_data total_qty,
      parse_diet float ratio feeds_df (Py.split "," (diet args)) [] 0
      = Ok (diet_data, total_qty)
      /\ (forall name q max_allowed,
             In (ConstraintWarning name q max_allowed) (warnings rep)
             <-> exists item,
                 In item diet_data
                 /\ Max_Inclusion_Pct (Data item) < Qty item
                 /\ name = Name (Data item)
                 /\ q = Qty item
                 /\ max_allowed = Max_Inclusion_Pct (Data item))
      /\ (forall q,
             In (TotalQuantityWarning q) (warnings rep) -> q = total_qty).
Proof.
  intros float ratio standards_df feeds_df args rep H.
  apply cmd_check_report in H.
  destruct H as (animal_std & diet_data & total_qty & _ & Hd & Hw & _).
  exists diet_data, total_qty. split; [exact Hd|].
  rewrite Hw. split.
  - intros name q max_allowed. rewrite in_app_iff. split.
    + intros [Hin|Hin].
      * destruct (Py.gt (Qabs (total_qty - 100.0)) 0.1);
          [destruct Hin as [Hx|[]]; discriminate|destruct Hin].
      * apply In_inclusion_warnings in Hin.
        destruct Hin as (item & Hi & Hq & Hx). injection Hx as -> -> ->.
        exists item. auto.
    + intros (item & Hi & Hq & -> & -> & ->). right.
      apply In_inclusion_warnings. exists item. auto.
  - intros q Hin. apply in_app_or in Hin. destruct Hin as [Hin|Hin].
    + destruct (Py.gt (Qabs (total_qty - 100.0)) 0.1); [|destruct Hin].
      destruct Hin as [Hin|[]]. now injection Hin as <-.
    + apply In_inclusion_warnings in Hin.
      destruct Hin as (item & _ & _ & Hx). discriminate.
Qed.

Lemma constraint_warnings_name_entries_over_maximum_witness :
  exists rep,
    Sample.check "BROILER" "CORN:80,SOY:30" = Ok rep
    /\ exists diet_data total_qty,
        parse_diet Decimal.float Difflib.ratio Sample.feeds_df
                   (Py.split "," "CORN:80,SOY:30") [] 0
        = Ok (diet_data, total_qty)
        /\ (forall name q max_allowed,
               In (ConstraintWarning name q max_allowed) (warnings rep)
               <-> exists item,
                   In item diet_data
                   /\ Max_Inclusion_Pct (Data item) < Qty item
                   /\ name = Name (Data item)
                   /\ q = Qty item
                   /\ max_allowed = Max_Inclusion_Pct (Data item))
        /\ (forall q,
               In (TotalQuantityWarning q) (warnings rep) -> q = total_qty).
Proof.
  eexists. split; [vm_compute; reflexivity|].
  apply (constraint_warnings_name_entries_over_maximum
           Decimal.float Difflib.ratio Sample.standards_df Sample.feeds_df
           (mkCheckArgs "BROILER" "CORN:80,SOY:30")).
  vm_compute. reflexivity.
Defined.

(** ** The tolerance check, further *)

Section ToleranceFurther.

Lemma check_nutrient_raise (tolerance calc target : Q) (e : Exn) :
  check_nutrient tolerance calc target = Raise e ->
  e = ZeroDivisionError /\ target == 0 /\ ~ calc == 0.
Proof.
  intro H.
  assert (Hdev : forall k : Q -> Status,
             (d <- deviation calc target ;; Ok (k d)) = Raise e ->
             e = ZeroDivisionError /\ target == 0).
  { intros k Hk. unfold deviation, Py.div in Hk.
    destruct (Qeq_bool target 0) eqn:E; cbn [bind] in Hk; [|discriminate].
    apply Qeq_bool_iff in E. injection Hk as <-. auto. }
  destruct (check_nutrient_cases tolerance calc target)
    as [(_ & _ & E)|[(Hl & E)|(_ & Hh & E)]]; rewrite E in H;
    [discriminate| |]; destruct (Hdev _ H) as [-> Ht];
    (split; [reflexivity|split; [exact Ht|]]); intro Hc.
  - rewrite Ht, Hc in Hl. assert (Hz : 0 * (1 - tolerance) == 0) by ring.
    rewrite Hz in Hl. apply (Qlt_irrefl 0 Hl).
  - rewrite Ht, Hc in Hh. assert (Hz : 0 * (1 + tolerance) == 0) by ring.
    rewrite Hz in Hh. apply (Qlt_irrefl 0 Hh).
Qed.

Lemma check_nutrient_zero_target (tolerance calc target : Q) :
  target == 0 -> ~ calc == 0 ->
  check_nutrient tolerance calc target = Raise ZeroDivisionError.
Proof.
  intros Ht Hc.
  destruct (check_nutrient_cases tolerance calc target)
    as [(Hl & Hh & _)|[(_ & E)|(_ & _ & E)]].
  - exfalso. apply Hc. rewrite Ht in Hl, Hh.
    assert (Hz1 : 0 * (1 - tolerance) == 0) by ring.
    assert (Hz2 : 0 * (1 + tolerance) == 0) by ring.
    rewrite Hz1 in Hl. rewrite Hz2 in Hh. apply Qle_antisym; assumption.
  - rewrite E, (deviation_zero _ _ Ht). reflexivity.
  - rewrite E, (deviation_zero _ _ Ht). reflexivity.
Qed.

Lemma compare_loop_raise (tolerance : Q)
      (data : list (string * Q * option Q)) :
  forall rows0 v0 e,
    compare_loop tolerance data rows0 v0 = Raise e ->
    e = ZeroDivisionError
    /\ exists l c t, In (l, c, Some t) data /\ t == 0 /\ ~ c == 0.
Proof.
  induction data as [|[[l c] [t|]] rest IH]; intros rows0 v0 e H;
    cbn [compare_loop] in H.
  - discriminate.
  - destruct (check_nutrient tolerance c t) as [s|e'] eqn:E;
      cbn [bind] in H.
    + apply IH in H. destruct H as (-> & l' & c' & t' & Hin & Hz).
      split; [reflexivity|]. exists l', c', t'. split; [right|]; assumption.
    + injection H as <-. apply check_nutrient_raise in E.
      destruct E as (-> & Ht & Hc). split; [reflexivity|].
      exists l, c, t. split; [left; reflexivity|auto].
  - apply IH in H. destruct H as (-> & l' & c' & t' & Hin & Hz).
    split; [reflexivity|]. exists l', c', t'. split; [right|]; assumption.
Qed.

Lemma compare_loop_zero_target (tolerance : Q)
      (data : list (string * Q * option Q)) (l : string) (c t : Q) :
  In (l, c, Some t) data -> t == 0 -> ~ c == 0 ->
  forall rows0 v0,
    compare_loop tolerance data rows0 v0 = Raise ZeroDivisionError.
Proof.
  intros Hin Ht Hc rows0 v0.
  destruct (compare_loop tolerance data rows0 v0) as [[rows v]|e] eqn:E.
  - exfalso. apply compare_loop_inv in E.
    destruct E as (new & _ & Hm & Hf & _).
    rewrite <- Hm in Hin. apply in_map_iff in Hin.
    destruct Hin as (r & Hr & Hin). injection Hr as Hl Hcalc Htarget.
    rewrite Forall_forall in Hf. specialize (Hf r Hin).
    unfold row_checked in Hf. rewrite Htarget, Hcalc in Hf.
    rewrite (check_nutrient_zero_target tolerance c t Ht Hc) in Hf.
    discriminate.
  - apply compare_loop_raise in E. destruct E as [-> _]. reflexivity.
Qed.

Lemma lookup_animal_exits ratio standards_df id e :
  lookup_animal ratio standards_df id = Raise e -> exists msg, e = SystemExit msg.
Proof.
  unfold lookup_animal.
  destruct (filter _ standards_df); intro H; [|discriminate].
  injection H as <-. eauto.
Qed.

Lemma resolve_entry_exits float ratio feeds_df entry e :
  resolve_entry float ratio feeds_df entry = Raise e ->
  exists msg, e = SystemExit msg.
Proof.
  unfold resolve_entry, parse_entry, lookup_feed.
  destruct (Py.unpack2 (Py.split ":" entry)) as [[f_id qty_str]|];
    [|intro H; injection H as <-; eauto].
  destruct (float qty_str); [|intro H; injection H as <-; eauto].
  cbn [bind]. destruct (filter _ feeds_df); cbn [bind]; intro H;
    [|discriminate].
  injection H as <-. eauto.
Qed.

Lemma parse_diet_exits float ratio feeds_df (diet_entries : list string) :
  forall diet_data total_qty e,
    parse_diet float ratio feeds_df diet_entries diet_data total_qty = Raise e ->
    exists msg, e = SystemExit msg.
Proof.
  induction diet_entries as [|entry rest IH]; intros diet_data total_qty e H.
  - discriminate.
  - rewrite parse_diet_step in H.
    destruct (resolve_entry float ratio feeds_df entry) as [item|e'] eqn:E;
      cbn [bind] in H.
    + apply IH in H. exact H.
    + injection H as <-. apply resolve_entry_exits in E. exact E.
Qed.

Lemma guarded_ratio_ok (num den : Q) :
  exists r, guarded_ratio num den = Ok r.
Proof.
  destruct (guarded_ratio_cases num den) as [[_ E]|[_ E]]; rewrite E; eauto.
Qed.

End ToleranceFurther.

(** Once the animal is found and the diet parsed, the run has two ways to
    end.  If some nutrient has a target of zero and a total other than
    zero, the deviation divides by zero and the run stops on
    [ZeroDivisionError]; otherwise a report is returned. *)
Theorem check_returns_unless_zero_target :
  forall float ratio standards_df feeds_df args animal_std diet_data total_qty,
    lookup_animal ratio standards_df (animal args) = Ok animal_std ->
    parse_diet float ratio feeds_df (Py.split "," (diet args)) [] 0
    = Ok (diet_data, total_qty) ->
    let data := comparison_data (accumulate diet_data) animal_std in
    ((exists l c t, In (l, c, Some t) data /\ t == 0 /\ ~ c == 0) ->
     cmd_check float ratio standards_df feeds_df args
     = Raise ZeroDivisionError)
    /\ ((forall l c t, In (l, c, Some t) data -> t == 0 -> c == 0) ->
        exists rep,
          cmd_check float ratio standards_df feeds_df args = Ok rep).
Proof.
  intros float ratio standards_df feeds_df args animal_std diet_data
         total_qty Ha Hd data.
  unfold cmd_check. rewrite Ha, Hd. cbn [bind].
  destruct (guarded_ratio_ok (Ca (accumulate diet_data))
                             (P (accumulate diet_data))) as [ca_p ->].
  destruct (guarded_ratio_ok (ME (accumulate diet_data))
                             (CP (accumulate diet_data))) as [me_cp ->].
  cbn [bind]. fold data. split.
  - intros (l & c & t & Hin & Ht & Hc).
    now rewrite (compare_loop_zero_target _ data l c t Hin Ht Hc).
  - intro Hall.
    destruct (compare_loop (Tolerance_Pct animal_std / 100.0) data [] "PASS")
      as [[rows verdict]|e] eqn:E; cbn [bind]; [eauto|].
    exfalso. apply compare_loop_raise in E.
    destruct E as (_ & l & c & t & Hin & Ht & Hc).
    apply Hc. apply (Hall l c t Hin Ht).
Qed.

Lemma check_returns_unless_zero_target_witness :
  cmd_check Decimal.float Difflib.ratio
            [mkStandard "CALF" "Calf" 10 (Some 0) None None None None]
            Sample.feeds_df (mkCheckArgs "CALF" "CORN:100")
  = Raise ZeroDivisionError.
Proof.
  apply (check_returns_unless_zero_target
           Decimal.float Difflib.ratio
           [mkStandard "CALF" "Calf" 10 (Some 0) None None None None]
           Sample.feeds_df (mkCheckArgs "CALF" "CORN:100")
           (mkStandard "CALF" "Calf" 10 (Some 0) None None None None)
           [mkDietItem "CORN" "Yellow corn" 100 Sample.corn] (0 + 100)).
  - reflexivity.
  - reflexivity.
  - exists "Metabolizable Energy (ME)", (0 + 100 * 3350 / 100), 0.
    split; [left; reflexivity|]. split; [reflexivity|discriminate].
Defined.

(** Every failure of [cmd_check] is one of two kinds: an exit with a
    message, from the animal lookup or from an entry of the diet, or a
    [ZeroDivisionError], which only a zero target with a non-zero total can
    cause, after the animal was found and the diet parsed. *)
Theorem check_failures_are_exits_or_zero_target :
  forall float ratio standards_df feeds_df args e,
    cmd_check float ratio standards_df feeds_df args = Raise e ->
    (exists msg, e = SystemExit msg)
    \/ (e = ZeroDivisionError
        /\ exists animal_std diet_data total_qty l c t,
            lookup_animal ratio standards_df (animal args) = Ok animal_std
            /\ parse_diet float ratio feeds_df (Py.split "," (diet args)) [] 0
               = Ok (diet_data, total_qty)
            /\ In (l, c, Some t)
                  (comparison_data (accumulate diet_data) animal_std)
            /\ t == 0 /\ ~ c == 0).
Proof.
  intros float ratio standards_df feeds_df args e. unfold cmd_check.
  destruct (lookup_animal ratio standards_df (animal args))
    as [animal_std|e'] eqn:Ha; cbn [bind].
  2:{ intro H. injection H as <-. left.
      apply lookup_animal_exits in Ha. exact Ha. }
  destruct (parse_diet float ratio feeds_df (Py.split "," (diet args)) [] 0)
    as [[diet_data total_qty]|e'] eqn:Hd; cbn [bind].
  2:{ intro H. injection H as <-. left.
      apply parse_diet_exits in Hd. exact Hd. }
  destruct (guarded_ratio_ok (Ca (accumulate diet_data))
                             (P (accumulate diet_data))) as [ca_p ->].
  destruct (guarded_ratio_ok (ME (accumulate diet_data))
                             (CP (accumulate diet_data))) as [me_cp ->].
  cbn [bind].
  destruct (compare_loop (Tolerance_Pct animal_std / 100.0)
              (comparison_data (accumulate diet_data) animal_std) [] "PASS")
    as [[rows verdict]|e'] eqn:E; cbn [bind]; [discriminate|].
  intro H. injection H as <-. right.
  apply compare_loop_raise in E.
  destruct E as (-> & l & c & t & Hin & Ht & Hc).
  split; [reflexivity|].
  exists animal_std, diet_data, total_qty, l, c, t. auto.
Qed.

Lemma check_failures_are_exits_or_zero_target_witness :
  (exists msg, SystemExit "Error: Animal ID 'HORSE' not found."
               = SystemExit msg)
  \/ (SystemExit "Error: Animal ID 'HORSE' not found." = ZeroDivisionError
      /\ exists animal_std diet_data total_qty l c t,
          lookup_animal Difflib.ratio Sample.standards_df "HORSE"
          = Ok animal_std
          /\ parse_diet Decimal.float Difflib.ratio Sample.feeds_df
                        (Py.split "," "CORN:100") [] 0
             = Ok (diet_data, total_qty)
          /\ In (l, c, Some t)
                (comparison_data (accumulate diet_data) animal_std)
          /\ t == 0 /\ ~ c == 0).
Proof.
  apply (check_failures_are_exits_or_zero_target
           Decimal.float Difflib.ratio Sample.standards_df Sample.feeds_df
           (mkCheckArgs "HORSE" "CORN:100")).
  reflexivity.
Defined.

(** ** Widening the tolerance *)

Section Widening.

Lemma check_nutrient_ok_widens (tol1 tol2 calc target : Q) :
  tol1 <= tol2 -> 0 <= target ->
  check_nutrient tol1 calc target = Ok StatusOK ->
  check_nutrient tol2 calc target = Ok StatusOK.
Proof.
  intros Htol Ht H.
  assert (Hin : target * (1 - tol1) <= calc /\ calc <= target * (1 + tol1)).
  { destruct (check_nutrient_cases tol1 calc target)
      as [(H1 & H2 & _)|[(_ & E)|(_ & _ & E)]]; [auto| |];
      rewrite E in H; exfalso; revert H;
      apply bind_deviation_not_ok; discriminate. }
  destruct Hin as [H1 H2].
  assert (Hd : 0 <= target * (tol2 - tol1)).
  { apply Qmult_le_0_compat; [exact Ht|lra]. }
  assert (E1 : target * (1 - tol2)
               == target * (1 - tol1) - target * (tol2 - tol1)) by ring.
  assert (E2 : target * (1 + tol2)
               == target * (1 + tol1) + target * (tol2 - tol1)) by ring.
  destruct (check_nutrient_cases tol2 calc target)
    as [(_ & _ & E)|[(Hl & _)|(_ & Hh & _)]]; [exact E| |]; exfalso.
  - rewrite E1 in Hl.
    set (a := target * (1 - tol1)) in *.
    set (b := target * (tol2 - tol1)) in *. lra.
  - rewrite E2 in Hh.
    set (a := target * (1 + tol1)) in *.
    set (b := target * (tol2 - tol1)) in *. lra.
Qed.

Lemma fail_stays_fail (tolerance : Q) (data : list (string * Q * option Q))
      (rows0 : list CompRow) :
  verdict_of (compare_loop tolerance data rows0 "FAIL") <> Ok "PASS".
Proof.
  destruct (compare_loop tolerance data rows0 "FAIL") as [[rows v]|e] eqn:E;
    cbn [verdict_of bind]; [|discriminate].
  apply compare_loop_inv in E. destruct E as (new & _ & _ & _ & ->).
  destruct (existsb _ new); discriminate.
Qed.

Lemma pass_widens (tol1 tol2 : Q) (data : list (string * Q * option Q)) :
  tol1 <= tol2 ->
  (forall l c t, In (l, c, Some t) data -> 0 <= t) ->
  forall rows1 rows2,
    verdict_of (compare_loop tol1 data rows1 "PASS") = Ok "PASS" ->
    verdict_of (compare_loop tol2 data rows2 "PASS") = Ok "PASS".
Proof.
  intros Htol. induction data as [|[[l c] [t|]] rest IH];
    intros Hpos rows1 rows2 H; cbn [compare_loop] in *.
  - reflexivity.
  - assert (Ht : 0 <= t) by (apply (Hpos l c t); left; reflexivity).
    destruct (check_nutrient tol1 c t) as [s|e] eqn:E; cbn [bind] in H;
      [|discriminate].
    destruct s; cbn [is_fail] in H.
    + apply check_nutrient_not_na in E. contradiction.
    + rewrite (check_nutrient_ok_widens tol1 tol2 c t Htol Ht E).
      cbn [bind is_fail]. apply IH with (rows1 := (rows1 ++ [mkCompRow l c (Some t) StatusOK])%list);
        [|exact H].
      intros l' c' t' Hin. apply (Hpos l' c' t'). right. exact Hin.
    + exfalso. revert H. apply fail_stays_fail.
    + exfalso. revert H. apply fail_stays_fail.
  - apply IH with (rows1 := (rows1 ++ [mkCompRow l c None StatusNA])%list);
      [|exact H].
    intros l' c' t' Hin. apply (Hpos l' c' t'). right. exact Hin.
Qed.

End Widening.

(** With targets that are not negative, a ration that passes at some
    tolerance passes at every wider one. *)
Theorem wider_tolerance_keeps_pass :
  forall (tau1 tau2 : Q) (data : list (string * Q * option Q)),
    tau1 <= tau2 ->
    (forall l c t, In (l, c, Some t) data -> 0 <= t) ->
    verdict_of (compare_loop (tau1 / 100.0) data [] "PASS") = Ok "PASS" ->
    verdict_of (compare_loop (tau2 / 100.0) data [] "PASS") = Ok "PASS".
Proof.
  intros tau1 tau2 data Htau Hpos H.
  apply (pass_widens (tau1 / 100.0) (tau2 / 100.0) data) with (rows1 := []);
    [|exact Hpos|exact H].
  apply Qmult_le_compat_r; [exact Htau|discriminate].
Qed.

Lemma wider_tolerance_keeps_pass_witness :
  verdict_of (compare_loop (10 / 100.0)
                [("Metabolizable Energy (ME)", 3100, Some 3000);
                 ("Lysine (%)", 1, None)] [] "PASS")
  = Ok "PASS".
Proof.
  apply (wider_tolerance_keeps_pass 5 10).
  - discriminate.
  - intros l c t [H|[H|[]]]; inversion H. discriminate.
  - reflexivity.
Defined.

(** ** Pearson Square, further *)

Lemma pearson_degenerate (target f1 f2 : Q) :
  f1 == target -> f2 == target ->
  between target f1 f2 /\ cmd_pearson target f1 f2 = Raise ZeroDivisionError.
Proof.
  intros E1 E2.
  assert (Hb : between target f1 f2).
  { left. rewrite E1, E2. split; apply Qle_refl. }
  split; [exact Hb|]. rewrite (pearson_valid _ _ _ Hb).
  assert (Hz : Qabs (f2 - target) + Qabs (f1 - target) == 0).
  { assert (Z1 : f1 - target == 0) by (rewrite E1; ring).
    assert (Z2 : f2 - target == 0) by (rewrite E2; ring).
    rewrite Z1, Z2. reflexivity. }
  rewrite (div_zero _ _ Hz). reflexivity.
Qed.

Lemma between_dec (target f1 f2 : Q) :
  between target f1 f2 \/ ~ between target f1 f2.
Proof.
  destruct ((Py.le f1 target && Py.le target f2)
            || (Py.le f2 target && Py.le target f1)) eqn:E.
  - left. apply between_test. exact E.
  - right. intro H. apply between_test in H. congruence.
Qed.

Lemma degenerate_dec (target f1 f2 : Q) :
  (f1 == target /\ f2 == target) \/ ~ (f1 == target /\ f2 == target).
Proof.
  destruct (Qeq_dec f1 target) as [E1|E1]; [|right; tauto].
  destruct (Qeq_dec f2 target) as [E2|E2]; [left; auto|right; tauto].
Qed.

Lemma pearson_ok_inv (target f1 f2 : Q) (r : PearsonReport) :
  cmd_pearson target f1 f2 = Ok r ->
  between target f1 f2 /\ ~ (f1 == target /\ f2 == target).
Proof.
  intro H. destruct (between_dec target f1 f2) as [Hb|Hb].
  - split; [exact Hb|]. intros [E1 E2].
    destruct (pearson_degenerate target f1 f2 E1 E2) as [_ E].
    rewrite E in H. discriminate.
  - rewrite (pearson_invalid _ _ _ Hb) in H. discriminate.
Qed.

(** The three outcomes of the Pearson Square command: the exit with its
    message exactly when the target is outside the two feed values, the
    division by zero exactly when both values equal the target, a report
    in every other case. *)
Theorem pearson_has_three_outcomes :
  forall target f1 f2 : Q,
    (cmd_pearson target f1 f2 = Raise (SystemExit pearson_range_msg)
     <-> ~ between target f1 f2)
    /\ (cmd_pearson target f1 f2 = Raise ZeroDivisionError
        <-> f1 == target /\ f2 == target)
    /\ ((exists r, cmd_pearson target f1 f2 = Ok r)
        <-> between target f1 f2 /\ ~ (f1 == target /\ f2 == target)).
Proof.
  intros target f1 f2.
  destruct (between_dec target f1 f2) as [Hb|Hb].
  - destruct (degenerate_dec target f1 f2) as [Hd|Hd].
    + destruct (pearson_degenerate target f1 f2 (proj1 Hd) (proj2 Hd))
        as [_ E].
      rewrite E. split; [|split]; split; intro H;
        first [discriminate H
              |reflexivity
              |tauto
              |destruct H as [r H]; discriminate H].
    + rewrite (pearson_report _ _ _ Hb Hd).
      split; [|split]; split; intro H;
        first [discriminate H|tauto|eauto].
  - rewrite (pearson_invalid _ _ _ Hb).
    assert (Hnd : ~ (f1 == target /\ f2 == target)).
    { intros [E1 E2]. apply Hb.
      apply (pearson_degenerate target f1 f2 E1 E2). }
    split; [|split]; split; intro H;
      first [discriminate H
            |reflexivity
            |tauto
            |destruct H as [r H]; discriminate H].
Qed.

Lemma pearson_has_three_outcomes_witness :
  cmd_pearson 50 9 44 = Raise (SystemExit pearson_range_msg)
  /\ cmd_pearson 9 9 9 = Raise ZeroDivisionError
  /\ exists r, cmd_pearson 9 9 44 = Ok r.
Proof.
  split; [|split].
  - apply (pearson_has_three_outcomes 50 9 44).
    intros [[H1 H2]|[H1 H2]]; apply H2; reflexivity.
  - apply (pearson_has_three_outcomes 9 9 9). split; reflexivity.
  - apply (pearson_has_three_outcomes 9 9 44). split.
    + left. split; discriminate.
    + intros [_ E]. discriminate E.
Defined.

(** Naming the feeds the other way round exchanges the two parts and the
    two percentages, and nothing else. *)
Theorem pearson_swapping_feeds_swaps_parts :
  forall (target f1 f2 : Q) (r : PearsonReport),
    cmd_pearson target f1 f2 = Ok r ->
    exists r' : PearsonReport,
      cmd_pearson target f2 f1 = Ok r'
      /\ diff1 r' = diff2 r /\ diff2 r' = diff1 r
      /\ pct1 r' == pct2 r /\ pct2 r' == pct1 r.
Proof.
  intros target f1 f2 r H.
  assert (Hok : between target f1 f2 /\ ~ (f1 == target /\ f2 == target)).
  { apply (pearson_ok_inv target f1 f2 r H). }
  destruct Hok as [Hb Hd].
  rewrite (pearson_report _ _ _ Hb Hd) in H.
  assert (Hr : r = mkPearsonReport
                     (Qabs (f2 - target)) (Qabs (f1 - target))
                     (Qabs (f2 - target)
                      / (Qabs (f2 - target) + Qabs (f1 - target)) * 100)
                     (Qabs (f1 - target)
                      / (Qabs (f2 - target) + Qabs (f1 - target)) * 100))
    by congruence.
  clear H. subst r.
  assert (Hb' : between target f2 f1) by (unfold between in *; tauto).
  assert (Hd' : ~ (f2 == target /\ f1 == target)) by tauto.
  eexists. split; [apply (pearson_report _ _ _ Hb' Hd')|].
  cbv beta iota delta [diff1 diff2 pct1 pct2].
  pose proof (total_parts_positive _ _ _ Hd) as Hpos.
  set (d1 := Qabs (f2 - target)) in *.
  set (d2 := Qabs (f1 - target)) in *.
  split; [reflexivity|]. split; [reflexivity|].
  split; field; lra.
Qed.

Lemma pearson_swapping_feeds_swaps_parts_witness :
  exists r' : PearsonReport,
    cmd_pearson 18 44 9 = Ok r'
    /\ diff1 r' = Qabs (9 - 18) /\ diff2 r' = Qabs (44 - 18)
    /\ pct1 r' == Qabs (9 - 18) / (Qabs (44 - 18) + Qabs (9 - 18)) * 100
    /\ pct2 r' == Qabs (44 - 18) / (Qabs (44 - 18) + Qabs (9 - 18)) * 100.
Proof.
  apply (pearson_swapping_feeds_swaps_parts 18 9 44
           (mkPearsonReport
              (Qabs (44 - 18)) (Qabs (9 - 18))
              (Qabs (44 - 18) / (Qabs (44 - 18) + Qabs (9 - 18)) * 100)
              (Qabs (9 - 18) / (Qabs (44 - 18) + Qabs (9 - 18)) * 100))).
  reflexivity.
Defined.

(** ** Dilution, further *)

Lemma cmd_dilute_cases (start target : Q) :
  (start <= target
   /\ cmd_dilute start target = Raise (SystemExit dilute_not_lower_msg))
  \/ (target < start /\ target <= 0
      /\ cmd_dilute start target = Raise (SystemExit dilute_zero_msg))
  \/ (target < start /\ 0 < target
      /\ cmd_dilute start target
         = Ok (mkDiluteReport (start / target) (start / target - 1))).
Proof.
  unfold cmd_dilute.
  destruct (Py.ge target start) eqn:E1.
  - apply ge_iff in E1. left. auto.
  - unfold Py.ge in E1. apply le_false_iff in E1. right.
    destruct (Py.le target 0) eqn:E2.
    + apply le_iff in E2. left. auto.
    + apply le_false_iff in E2. right.
      rewrite div_nonzero by lra. auto.
Qed.

(** How a dilution is refused.  A target at or above the start gets the
    message about the lower concentration, also when the target is zero or
    negative; a target below the start that is zero or negative gets the
    message about zero; a start that is zero or negative is therefore
    always refused; and the command never divides by zero. *)
Theorem dilution_refusals :
  forall start target : Q,
    (start <= target ->
     cmd_dilute start target = Raise (SystemExit dilute_not_lower_msg))
    /\ (target < start -> target <= 0 ->
        cmd_dilute start target = Raise (SystemExit dilute_zero_msg))
    /\ (start <= 0 -> exists msg, cmd_dilute start target
                                  = Raise (SystemExit msg))
    /\ cmd_dilute start target <> Raise ZeroDivisionError.
Proof.
  intros start target.
  destruct (cmd_dilute_cases start target)
    as [(H1 & E)|[(H1 & H2 & E)|(H1 & H2 & E)]]; rewrite E;
    (split; [|split; [|split]]); try discriminate; intros; eauto;
    exfalso; lra.
Qed.

Lemma dilution_refusals_witness :
  cmd_dilute 20 (-5) = Raise (SystemExit dilute_zero_msg)
  /\ cmd_dilute (-20) (-5) = Raise (SystemExit dilute_not_lower_msg).
Proof.
  split.
  - apply (dilution_refusals 20 (-5)); [reflexivity|discriminate].
  - apply (dilution_refusals (-20) (-5)). discriminate.
Defined.

(** ** Suggestions, further *)

Section SuggestionsFurther.
Variable ratio : string -> string -> Q.

Lemma candidates_complete (word : string) (cutoff : Q)
      (possibilities : list string) (x : string) :
  In x possibilities -> cutoff <= ratio x word ->
  In (ratio x word, x) (Difflib.candidates ratio word possibilities cutoff).
Proof.
  intros Hin Hc. induction possibilities as [|y rest IH];
    cbn [Difflib.candidates]; [destruct Hin|].
  destruct Hin as [->|Hin].
  - apply ge_iff in Hc. rewrite Hc. left. reflexivity.
  - destruct (Py.ge (ratio y word) cutoff); [right|]; apply IH; exact Hin.
Qed.

Lemma sorted_app_order {A : Type} (R : A -> A -> Prop) (l1 l2 : list A) :
  StronglySorted R (l1 ++ l2) ->
  forall a b, In a l1 -> In b l2 -> R a b.
Proof.
  induction l1 as [|x l1 IH]; cbn [app]; intros Hs a b Ha Hb;
    [destruct Ha|].
  inversion Hs as [|? ? Hs' Hx]; subst.
  destruct Ha as [<-|Ha].
  - rewrite Forall_forall in Hx. apply Hx. apply in_or_app. right. exact Hb.
  - apply (IH Hs' a b Ha Hb).
Qed.

Lemma skipn_nonempty_length {A : Type} (n : nat) (l : list A) (x : A) :
  In x (skipn n l) -> List.length (firstn n l) = n.
Proof.
  intro H. apply firstn_length_le.
  destruct (Nat.le_gt_cases n (List.length l)) as [Hle|Hgt]; [exact Hle|].
  rewrite skipn_all2 in H by lia. destruct H.
Qed.

Lemma find_similar_id_best (word : string) (ids : list string) (x : string) :
  In x ids -> 0.6 <= ratio x word ->
  In x (find_similar_id ratio word ids)
  \/ (List.length (find_similar_id ratio word ids) = 3%nat
      /\ Forall (fun y => ratio x word <= ratio y word)
                (find_similar_id ratio word ids)).
Proof.
  intros Hin Hc.
  unfold find_similar_id, Difflib.get_close_matches, Difflib.nlargest.
  set (c := Difflib.candidates ratio word ids 0.6).
  pose proof (candidates_complete word 0.6 ids x Hin Hc) as Hp. fold c in Hp.
  apply In_sorted_desc in Hp.
  rewrite <- (firstn_skipn 3 (Difflib.sorted_desc c)) in Hp.
  apply in_app_or in Hp. destruct Hp as [Hp|Hp].
  - left. apply in_map_iff. exists (ratio x word, x). auto.
  - right. split.
    + rewrite length_map. apply (skipn_nonempty_length 3 _ _ Hp).
    + apply Forall_forall. intros y Hy. apply in_map_iff in Hy.
      destruct Hy as (q & <- & Hq).
      pose proof (sorted_desc_sorted c) as Hs.
      rewrite <- (firstn_skipn 3 (Difflib.sorted_desc c)) in Hs.
      pose proof (sorted_app_order by_score _ _ Hs q _ Hq Hp) as Hord.
      unfold by_score in Hord. cbn [fst] in Hord.
      apply In_firstn in Hq. apply (proj1 (In_sorted_desc _ _)) in Hq.
      apply candidates_spec in Hq. destruct Hq as (Eq' & _).
      rewrite <- Eq'. exact Hord.
Qed.

End SuggestionsFurther.

(** The suggestions are the best candidates.  Every identifier of the
    table whose similarity reaches 0.6 is either suggested or beaten, or
    equalled, by all three suggestions; there is no suggestion exactly
    when no identifier reaches 0.6, and then the message ends after "not
    found.". *)
Theorem suggestions_are_the_closest_ids :
  forall (ratio : string -> string -> Q) (word : string) (ids : list string),
    (forall x,
        In x ids -> 0.6 <= ratio x word ->
        In x (find_similar_id ratio word ids)
        \/ (List.length (find_similar_id ratio word ids) = 3%nat
            /\ Forall (fun y => ratio x word <= ratio y word)
                      (find_similar_id ratio word ids)))
    /\ (find_similar_id ratio word ids = []
        <-> forall x, In x ids -> ratio x word < 0.6)
    /\ (forall kind,
           (forall x, In x ids -> ratio x word < 0.6) ->
           not_found_msg kind word (find_similar_id ratio word ids)
           = "Error: " ++ kind ++ " ID '" ++ word ++ "' not found.").
Proof.
  intros ratio word ids.
  assert (Hempty : (forall x, In x ids -> ratio x word < 0.6) ->
                   find_similar_id ratio word ids = []).
  { intro Hall.
    destruct (find_similar_id ratio word ids) as [|y rest] eqn:E;
      [reflexivity|].
    exfalso.
    destruct (get_close_matches_spec ratio word ids 3 0.6) as (_ & Hf & _).
    fold (find_similar_id ratio word ids) in Hf. rewrite E in Hf.
    apply Forall_inv in Hf. destruct Hf as [Hy Hc].
    apply (Qlt_not_le _ _ (Hall y Hy) Hc). }
  split; [|split].
  - intros x Hin Hc. apply find_similar_id_best; assumption.
  - split; [|exact Hempty].
    intros E x Hin. apply Qnot_le_lt. intro Hc.
    destruct (find_similar_id_best ratio word ids x Hin Hc) as [H|[H _]];
      rewrite E in H; [destruct H|discriminate].
  - intros kind Hall. rewrite (Hempty Hall). reflexivity.
Qed.

Lemma suggestions_are_the_closest_ids_witness :
  In "SOY" (find_similar_id Difflib.ratio "SOYA"
                            (map Feed_ID Sample.feeds_df))
  \/ (List.length (find_similar_id Difflib.ratio "SOYA"
                                   (map Feed_ID Sample.feeds_df)) = 3%nat
      /\ Forall (fun y => Difflib.ratio "SOY" "SOYA" <= Difflib.ratio y "SOYA")
                (find_similar_id Difflib.ratio "SOYA"
                                 (map Feed_ID Sample.feeds_df))).
Proof.
  apply (suggestions_are_the_closest_ids
           Difflib.ratio "SOYA" (map Feed_ID Sample.feeds_df)).
  - right. left. reflexivity.
  - vm_compute. discriminate.
Defined.
